(** * BasicHTTPBrowser: the HTTP client of [WebBrowserApp/client.py]

    A shallow embedding of the model, view and controller classes of
    [client.py], and the properties of its request framing, transport
    exchange and header/body separation.

    Python values are embedded as follows.
    - [str] is a list of Unicode code points ([N]); [bytes] is a list of
      [Byte.byte].
    - [bytes.decode()] and [str.encode()] are the strict UTF-8 codec.
    - An exception is a value of [exn]; a call either returns or raises
      ([outcome]).
    - The operating system is a table of open socket descriptors, a network
      that answers connection attempts, and a trace of the calls made.
    - A host is converted by [connect] before anything is attempted, and a
      host that fails there is refused with a [TypeError]. *)

From Stdlib Require Import Strings.String Strings.Ascii Strings.Byte NArith.
From stdpp Require Import base option list gmap.
From Equations Require Import Equations.
From Equations.Prop Require Import Logic.

Local Open Scope N_scope.

(** ** Text and bytes *)

Definition str := list N.
Definition bytes := list byte.

(** *** The UTF-8 codec *)

Definition in_range (lo hi : N) (b : byte) : bool :=
  (lo <=? Byte.to_N b) && (Byte.to_N b <=? hi).

Definition cont (b : byte) : bool := in_range 128 191 b.

Definition low6 (b : byte) : N := N.land (Byte.to_N b) 63.

(** [bytes.decode()]: [None] stands for [UnicodeDecodeError]. Overlong forms,
    surrogates and code points above U+10FFFF are rejected. *)
Fixpoint utf8_decode (bs : bytes) : option str :=
  match bs with
  | [] => Some []
  | b0 :: r0 =>
    let n0 := Byte.to_N b0 in
    if n0 <? 128 then cons n0 <$> utf8_decode r0
    else if in_range 194 223 b0 then
      match r0 with
      | b1 :: r1 =>
        if cont b1
        then cons (N.lor (N.shiftl (N.land n0 31) 6) (low6 b1)) <$> utf8_decode r1
        else None
      | _ => None
      end
    else if in_range 224 239 b0 then
      match r0 with
      | b1 :: b2 :: r2 =>
        let lo := if n0 =? 224 then 160 else 128 in
        let hi := if n0 =? 237 then 159 else 191 in
        if in_range lo hi b1 && cont b2
        then cons (N.lor (N.shiftl (N.land n0 15) 12)
                     (N.lor (N.shiftl (low6 b1) 6) (low6 b2)))
               <$> utf8_decode r2
        else None
      | _ => None
      end
    else if in_range 240 244 b0 then
      match r0 with
      | b1 :: b2 :: b3 :: r3 =>
        let lo := if n0 =? 240 then 144 else 128 in
        let hi := if n0 =? 244 then 143 else 191 in
        if in_range lo hi b1 && cont b2 && cont b3
        then cons (N.lor (N.shiftl (N.land n0 7) 18)
                     (N.lor (N.shiftl (low6 b1) 12)
                        (N.lor (N.shiftl (low6 b2) 6) (low6 b3))))
               <$> utf8_decode r3
        else None
      | _ => None
      end
    else None
  end.

(** The byte with the low eight bits of [n]. *)
Definition byte_of_N (n : N) : byte :=
  default x00 (Byte.of_N (N.land n 255)).

Definition trail (n : N) : byte := byte_of_N (N.lor 128 (N.land n 63)).

(** The UTF-8 form of one code point; [None] for a surrogate, which
    [str.encode()] refuses with [UnicodeEncodeError] (and for numbers that are
    no code points). *)
Definition utf8_encode_char (c : N) : option bytes :=
  if c <? 128 then Some [byte_of_N c]
  else if c <? 2048 then
    Some [byte_of_N (N.lor 192 (N.shiftr c 6)); trail c]
  else if (55296 <=? c) && (c <=? 57343) then None
  else if c <? 65536 then
    Some [byte_of_N (N.lor 224 (N.shiftr c 12)); trail (N.shiftr c 6); trail c]
  else if c <? 1114112 then
    Some [byte_of_N (N.lor 240 (N.shiftr c 18)); trail (N.shiftr c 12);
          trail (N.shiftr c 6); trail c]
  else None.

Fixpoint utf8_encode (s : str) : option bytes :=
  match s with
  | [] => Some []
  | c :: s' =>
    match utf8_encode_char c, utf8_encode s' with
    | Some b, Some bs => Some (b ++ bs)
    | _, _ => None
    end
  end.

(** *** Literals *)

(** The text of a literal, read from the UTF-8 bytes of its source form. *)
Definition lit (s : string) : str :=
  default [] (utf8_decode (list_byte_of_string s)).

Definition CR : N := 13.
Definition LF : N := 10.
Definition backslash : N := 92.

(** The escape sequences of a Python string literal that [client.py] uses:
    [\r], [\n] (and the escaped backslash). *)
Fixpoint unescape (s : str) : str :=
  match s with
  | [] => []
  | c :: s' =>
    if c =? backslash then
      match s' with
      | d :: s'' =>
        if d =? 114 then CR :: unescape s''
        else if d =? 110 then LF :: unescape s''
        else if d =? backslash then backslash :: unescape s''
        else c :: unescape s'
      | [] => [c]
      end
    else c :: unescape s'
  end.

(** A Python literal ['...'] as it is written in the source. *)
Definition py (s : string) : str := unescape (lit s).

(** *** Substring search and [str.split] *)

Fixpoint startswith (p s : str) : bool :=
  match p, s with
  | [], _ => true
  | a :: p', b :: s' => (a =? b) && startswith p' s'
  | _ :: _, [] => false
  end.

(** Index of the first occurrence of [sub] in [s]. *)
Fixpoint str_find (sub s : str) : option nat :=
  if startswith sub s then Some 0%nat
  else match s with
       | [] => None
       | _ :: s' => S <$> str_find sub s'
       end.

Lemma startswith_length p s :
  startswith p s = true → (length p ≤ length s)%nat.
Proof.
  revert s. induction p as [|a p IH]; intros [|b s]; simpl; try lia; try done.
  intros [_ H]%andb_prop. apply IH in H. lia.
Qed.

Lemma str_find_bound sub s i :
  str_find sub s = Some i → (i + length sub ≤ length s)%nat.
Proof.
  revert i. induction s as [|b s IH]; intros i; simpl.
  - destruct (startswith sub []) eqn:E; [|done].
    intros [= <-]. apply startswith_length in E. simpl in *. lia.
  - destruct (startswith sub (b :: s)) eqn:E.
    + intros [= <-]. apply startswith_length in E. simpl in *. lia.
    + destruct (str_find sub s) as [j|]; simpl; [|done].
      intros [= <-]. specialize (IH j eq_refl). lia.
Qed.

(** The pieces of [s] between the successive, non-overlapping occurrences of
    the separator [c :: sep'], scanning from the left. *)
Equations? pieces (c : N) (sep' : str) (s : str) : list str
  by wf (length s) lt :=
  pieces c sep' s with inspect (str_find (c :: sep') s) := {
    | exist _ None _ => [s]
    | exist _ (Some i) Hi =>
        take i s :: pieces c sep' (drop (i + S (length sep')) s) }.
Proof.
  apply str_find_bound in Hi. simpl in Hi. rewrite length_drop. lia.
Qed.

(** [s.split(sep)]: an empty separator is a [ValueError] in Python, signalled
    here by [None]. *)
Definition str_split (s sep : str) : option (list str) :=
  match sep with
  | [] => None
  | c :: sep' => Some (pieces c sep' s)
  end.

(** Tuple unpacking [a, b = l]: any other number of items is a
    [ValueError]. *)
Definition unpack2 (l : list str) : option (str * str) :=
  match l with
  | [a; b] => Some (a, b)
  | _ => None
  end.

(** *** Formatted string literals *)

Inductive fpart :=
| FLit (s : str)      (* literal text *)
| FExpr (s : str).    (* a replacement field [{e}] whose value is a [str] *)

Definition fstring (parts : list fpart) : str :=
  flat_map (λ p, match p with FLit s => s | FExpr s => s end) parts.

(** ** Exceptions, outcomes and values *)

Inductive errno :=
| ECONNREFUSED | ETIMEDOUT | EHOSTUNREACH | EAI_NONAME
| EPIPE | ECONNRESET | ENOTCONN | EISCONN | EBADF | ENOENT | EIO.

(** [socket.error] is [OSError]; [socket.gaierror], [socket.timeout],
    [ConnectionRefusedError], [ConnectionResetError], [BrokenPipeError] and
    [FileNotFoundError] are subclasses of it, told apart here by their
    [errno]. [UnicodeDecodeError] and [UnicodeEncodeError] are subclasses of
    [ValueError], not of [OSError]. *)
Inductive exn :=
| OSError (e : errno)
| ValueError
| UnicodeDecodeError
| UnicodeEncodeError
| AttributeError
| TypeError.

(** The test of an [except socket.error] clause. *)
Definition socket_error (e : exn) : bool :=
  match e with
  | OSError _ => true
  | _ => false
  end.

Inductive outcome (A : Type) :=
| Return (a : A)
| Raise (e : exn).
Arguments Return {A} a.
Arguments Raise {A} e.

Inductive value :=
| VNone
| VStr (s : str)
| VSock (fd : nat).

(** ** Sockets and the network *)

Definition address : Type := str * Z.

Inductive op := OpSend | OpRecv | OpGetpeername | OpClose.

#[global] Instance op_eq_dec : EqDecision op.
Proof. solve_decision. Defined.

(** An established TCP connection, seen from the client: the transport error
    that a call meets, if any (peer reset, broken pipe, read error); the peer,
    as the bytes it has delivered once it has been sent [tx]; the room of the
    send buffer. *)
Record connection := Connection {
  peer : address;
  fault : op → option errno;
  server : bytes → bytes;
  sndbuf : nat }.

Record socket := Socket {
  conn : option connection;   (* [None]: never connected *)
  tx : bytes;                 (* bytes written so far *)
  nread : nat }.              (* delivered bytes already read *)

(** What lies behind an address that [connect] accepts: the resolution of
    the name or the attempt itself fails with [e], or a server accepts the
    connection. *)
Inductive endpoint :=
| Absent (e : errno)
| Present (fault : op → option errno) (server : bytes → bytes) (sndbuf : nat).

(** ** Host names *)

(** [connect((host, port))] takes [host] through the converter of the socket
    module before anything is attempted: a [str] of ASCII characters goes as
    it is, any other [str] is encoded with the [idna] codec, and the result
    must hold no NUL. A host that fails there is refused with a
    [TypeError]. *)

Definition is_ascii (s : str) : bool := forallb (λ c, c <? 128) s.

(** [s.encode('ascii')] of an ASCII [s]. *)
Definition ascii_bytes (s : str) : bytes := byte_of_N <$> s.

(** The separators of labels, [dots] of [encodings.idna]: U+002E, U+3002,
    U+FF0E and U+FF61. *)
Definition dot (c : N) : bool :=
  (c =? 46) || (c =? 12290) || (c =? 65294) || (c =? 65377).

(** [dots.split(input)] *)
Fixpoint labels (input : str) : list str :=
  match input with
  | [] => [[]]
  | c :: s =>
    if dot c then [] :: labels s
    else match labels s with
         | l :: ls => (c :: l) :: ls
         | [] => [[c]]
         end
  end.

(** [ToASCII(label)] of [encodings.idna]; [None] stands for [UnicodeError].
    An ASCII label goes as it is. For any other, [ace] stands for the steps
    2 to 7: [nameprep] and, unless that leaves ASCII characters only, the test
    of the ACE prefix, [punycode] and the prefix; their tables are those of
    the interpreter's [stringprep] and [unicodedata]. Either way the result
    must have from 1 to 63 bytes. *)
Definition ToASCII (ace : str → option bytes) (label : str) : option bytes :=
  match (if is_ascii label then Some (ascii_bytes label) else ace label) with
  | Some b =>
    if (0 <? length b)%nat && (length b <? 64)%nat then Some b else None
  | None => None
  end.

(** The loop of [encode] over the labels; [result] holds the bytes so far. *)
Fixpoint encode_labels (ace : str → option bytes) (result : bytes)
    (ls : list str) : option bytes :=
  match ls with
  | [] => Some result
  | label :: ls' =>
    match ToASCII ace label with
    | Some b =>
      encode_labels ace
        (match result with
         | [] => b
         | _ => result ++ ["."%byte] ++ b
         end) ls'
    | None => None
    end
  end.

(** [input.encode('idna')] for an [input] that is not ASCII (an ASCII host
    does not reach the codec): every label is encoded, and an empty last
    label, after a final dot, is kept as that dot. *)
Definition idna_encode (ace : str → option bytes) (input : str)
    : option bytes :=
  match input with
  | [] => Some []
  | _ =>
    let ls := labels input in
    let '(ls, trailing_dot) :=
      match last ls with
      | Some [] => (removelast ls, ["."%byte])
      | _ => (ls, [])
      end in
    match encode_labels ace [] ls with
    | Some result => Some (result ++ trailing_dot)
    | None => None
    end
  end.

(** The converter of the host argument; [None] stands for the [TypeError]
    ("encoding of hostname failed", "host name must not contain null
    character"). *)
Definition hostname (ace : str → option bytes) (host : str) : option bytes :=
  match (if is_ascii host then Some (ascii_bytes host)
         else idna_encode ace host) with
  | Some buf => if existsb (Byte.eqb x00) buf then None else Some buf
  | None => None
  end.

Inductive event :=
| EvSocket (fd : nat)
| EvConnect (fd : nat) (a : address)
| EvSend (fd : nat) (data : bytes)
| EvRecv (fd : nat) (bufsize : nat)
| EvGetpeername (fd : nat)
| EvClose (fd : nat)
| EvPrint (s : str)
| EvPrintExn (e : exn)
| EvOpen (path : str)
| EvSetHtml (v : value).

(** The world outside the program: what lies behind the addresses, the
    tables of the [idna] codec (see [ToASCII]), the files, the socket objects
    that no call has closed (one that [close] was called on is absent), the
    number of the next socket object and the calls made so far.

    A socket object that the program no longer refers to is closed by the
    interpreter when it reclaims the object. That is no call of the program:
    it is not in [trace] and does not remove the socket from [sockets]. So
    [sockets] tells which sockets the calls have left open, for as long as
    the program holds them. *)
Record world := World {
  endpoints : address → endpoint;
  ace : str → option bytes;
  files : str → outcome str;
  sockets : gmap nat socket;
  next_fd : nat;
  trace : list event }.

(** What a fresh socket meets when it is connected to [a]: [connect] refuses
    the host, the attempt fails, or a server accepts. *)
Inductive reach :=
| Refused
| Unreachable (e : errno)
| Listening (fault : op → option errno) (server : bytes → bytes) (sndbuf : nat).

Definition network (w : world) (a : address) : reach :=
  match hostname (ace w) (fst a) with
  | None => Refused
  | Some _ =>
    match endpoints w a with
    | Absent e => Unreachable e
    | Present f srv room => Listening f srv room
    end
  end.

Definition log (ev : event) (w : world) : world :=
  World (endpoints w) (ace w) (files w) (sockets w) (next_fd w)
        (trace w ++ [ev]).

Definition set_socket (fd : nat) (s : socket) (w : world) : world :=
  World (endpoints w) (ace w) (files w) (<[fd := s]> (sockets w)) (next_fd w)
        (trace w).

Definition drop_socket (fd : nat) (w : world) : world :=
  World (endpoints w) (ace w) (files w) (delete fd (sockets w)) (next_fd w)
        (trace w).

(** ** Computations: state and exceptions *)

Definition M (A : Type) : Type := world → outcome A * world.

Definition ret {A} (a : A) : M A := λ w, (Return a, w).

Definition raise {A} (e : exn) : M A := λ w, (Raise e, w).

Definition bind {A B} (m : M A) (k : A → M B) : M B :=
  λ w, match m w with
       | (Return a, w') => k a w'
       | (Raise e, w') => (Raise e, w')
       end.

Notation "x <- m ;; k" := (bind m (λ x, k))
  (at level 100, m at next level, right associativity).
Notation "m ;; k" := (bind m (λ _, k))
  (at level 100, right associativity).

(** [try: body except C: handler], where [catches] is the test of class
    [C]. *)
Definition try_except {A} (body : M A) (catches : exn → bool)
    (handler : exn → M A) : M A :=
  λ w, match body w with
       | (Raise e, w') => if catches e then handler e w' else (Raise e, w')
       | r => r
       end.

Definition or_raise {A} (e : exn) (o : option A) : M A :=
  match o with
  | Some a => ret a
  | None => raise e
  end.

Definition emit (ev : event) : M unit := λ w, (Return (), log ev w).

(** *** Methods of [socket.socket] *)

(** A method call on an object that is no socket is an [AttributeError]. *)
Definition method {A} (v : value) (k : nat → M A) : M A :=
  match v with
  | VSock fd => k fd
  | _ => raise AttributeError
  end.

(** [socket.socket(socket.AF_INET, socket.SOCK_STREAM)]: a new socket
    object, not connected. Its creation is taken to succeed. *)
Definition socket_socket : M value :=
  λ w, let fd := next_fd w in
       (Return (VSock fd),
        World (endpoints w) (ace w) (files w)
              (<[fd := Socket None [] 0]> (sockets w))
              (S fd) (trace w ++ [EvSocket fd])).

(** [sock.connect(address)]: the host of the address is converted first,
    and a host that is refused is a [TypeError] whatever the socket. The port
    is taken to be in range (it is 80 in this program). *)
Definition sock_connect (v : value) (a : address) : M unit :=
  method v (λ fd,
    emit (EvConnect fd a) ;;
    λ w, match hostname (ace w) (fst a) with
         | None => (Raise TypeError, w)
         | Some _ =>
           match sockets w !! fd with
           | None => (Raise (OSError EBADF), w)
           | Some s =>
             match conn s with
             | Some _ => (Raise (OSError EISCONN), w)
             | None =>
               match endpoints w a with
               | Absent e => (Raise (OSError e), w)
               | Present f srv room =>
                 (Return (),
                  set_socket fd
                    (Socket (Some (Connection a f srv room)) [] 0) w)
               end
             end
           end
         end).

(** The part common to the calls on a connected socket: the descriptor is
    open, the socket is connected, and the transport reports no error. *)
Definition on_connection {A} (o : op) (fd : nat)
    (k : socket → connection → M A) : M A :=
  λ w, match sockets w !! fd with
       | None => (Raise (OSError EBADF), w)
       | Some s =>
         match conn s with
         | None => (Raise (OSError ENOTCONN), w)
         | Some c =>
           match fault c o with
           | Some e => (Raise (OSError e), w)
           | None => k s c w
           end
         end
       end.

(** [sock.send(data)]: returns the number of bytes taken, which may be less
    than [len(data)]. *)
Definition sock_send (v : value) (data : bytes) : M nat :=
  method v (λ fd,
    emit (EvSend fd data) ;;
    on_connection OpSend fd (λ s c w,
      let taken := take (sndbuf c) data in
      (Return (length taken),
       set_socket fd (Socket (conn s) (tx s ++ taken) (nread s)) w))).

(** [sock.recv(bufsize)]: at most [bufsize] of the bytes delivered and not
    read yet. A read that would block is not modelled: it returns what is
    there, possibly nothing. *)
Definition sock_recv (v : value) (bufsize : nat) : M bytes :=
  method v (λ fd,
    emit (EvRecv fd bufsize) ;;
    on_connection OpRecv fd (λ s c w,
      let data := take bufsize (drop (nread s) (server c (tx s))) in
      (Return data,
       set_socket fd (Socket (conn s) (tx s) (nread s + length data)) w))).

(** [sock.getpeername()] *)
Definition sock_getpeername (v : value) : M address :=
  method v (λ fd,
    emit (EvGetpeername fd) ;;
    on_connection OpGetpeername fd (λ s c, ret (peer c))).

(** [sock.close()]: the descriptor is released whether or not the system
    reports an error; closing a closed socket does nothing. *)
Definition sock_close (v : value) : M unit :=
  method v (λ fd,
    emit (EvClose fd) ;;
    λ w, match sockets w !! fd with
         | None => (Return (), w)
         | Some s =>
           match conn s ≫= (λ c, fault c OpClose) with
           | Some e => (Raise (OSError e), drop_socket fd w)
           | None => (Return (), drop_socket fd w)
           end
         end).

(** [print(s)] *)
Definition print (s : str) : M unit := emit (EvPrint s).

(** [open(path, 'r', encoding='utf-8')] and [read()] *)
Definition read_text (path : str) : M str :=
  emit (EvOpen path) ;;
  λ w, (files w path, w).

(** ** [class WebBrowserModel] *)

Module WebBrowserModel.

Definition PORT : Z := 80.

Definition connect_to_server (host : str) : M value :=
  client_socket <- socket_socket ;;
  sock_connect client_socket (host, PORT) ;;
  ret client_socket.

Definition close_connection (client_socket : value) : M value :=
  try_except
    (peername <- sock_getpeername client_socket ;;
     sock_close client_socket ;;
     ret VNone)
    socket_error
    (λ _, print (lit "Conexão não existe ou já foi fechada.") ;;
          ret VNone).

(** The statements of [send_request] after the read: [decode()], the
    [split('<html>')] unpacked into [heading, body], and the marker put back
    before [body]. *)
Definition split_body (response_message : bytes) : M str :=
  response_message_decoded <-
    or_raise UnicodeDecodeError (utf8_decode response_message) ;;
  items <- or_raise ValueError
             (str_split response_message_decoded (py "<html>")) ;;
  hb <- or_raise ValueError (unpack2 items) ;;
  let body := snd hb in
  let body := fstring [FLit (py "<html>")] ++ fstring [FExpr body] in
  ret body.

(** The statements of [send_request] up to the read: [encode()],
    [send(...)] and [recv(4096)]. *)
Definition exchange (request_message : str) (client_socket : value)
    : M bytes :=
  request_message_encoded <-
    or_raise UnicodeEncodeError (utf8_encode request_message) ;;
  sock_send client_socket request_message_encoded ;;
  sock_recv client_socket 4096.

Definition send_request (host request_message : str)
    (client_socket : value) : M value :=
  try_except
    (response_message <- exchange request_message client_socket ;;
     body <- split_body response_message ;;
     ret (VStr body))
    socket_error
    (λ e, ret (VStr (py ""))).

End WebBrowserModel.

(** ** [class WebBrowserController] *)

(** The methods forward to [self._model], which is the [WebBrowserModel]
    instance, and have no [return] statement. The socket that
    [connect_to_server] receives from the model is dropped there; that the
    interpreter then reclaims and closes it is outside the model (see
    [world]), so nothing is stated about that socket afterwards. *)
Module WebBrowserController.

Definition connect_to_server (host : str) : M value :=
  WebBrowserModel.connect_to_server host ;;
  ret VNone.

Definition close_connection (client_socket : value) : M value :=
  WebBrowserModel.close_connection client_socket ;;
  ret VNone.

Definition send_request (host request_message : str)
    (client_socket : value) : M value :=
  WebBrowserModel.send_request host request_message client_socket ;;
  ret VNone.

End WebBrowserController.

(** ** [class WebBrowserView] *)

(** What the view calls on [self._controller]. *)
Record controller := Controller {
  ctl_connect_to_server : str → M value;
  ctl_send_request : str → str → value → M value }.

(** [view = WebBrowserView(model)]: the view is given the model itself. *)
Definition model : controller :=
  Controller WebBrowserModel.connect_to_server WebBrowserModel.send_request.

(** A view given a [WebBrowserController] instead. *)
Definition controller_instance : controller :=
  Controller WebBrowserController.connect_to_server
             WebBrowserController.send_request.

Module WebBrowserView.

Definition display_html (html_document : value) (as_path : bool) : M value :=
  if as_path then
    match html_document with
    | VStr path =>
      html_content <- read_text path ;;
      emit (EvSetHtml (VStr html_content)) ;;
      ret VNone
    | _ => raise TypeError
    end
  else
    emit (EvSetHtml html_document) ;;
    ret VNone.

Definition display_initial_html : M value :=
  display_html (VStr (py "imagens/menu.html")) true.

(** The treatment of the address bar's text: protocol prefix and split at
    the slashes. The result is [(server_address, resource_url)]. *)
Definition parse_address (address_input : str) : str * str :=
  let address_input :=
    match str_find (py "http://") address_input with
    | Some _ => drop 7 address_input
    | None => address_input
    end in
  match str_split address_input (py "/") with
  | Some [a] => (a, py "")
  | Some [a; b] => (a, b)
  | _ => (py "", py "")
  end.

(** The request-building statement of [search_address],
    [request_message = f'GET /{resource_url} HTTP/1.1\r\nHost: {server_address}\r\n\r\n']. *)
Definition build (server_address resource_url : str) : M str :=
  ret (fstring [FLit (py "GET /"); FExpr resource_url;
                FLit (py " HTTP/1.1\r\nHost: "); FExpr server_address;
                FLit (py "\r\n\r\n")]).

(** [search_address]. The store [self.client_socket = ...] is read back in
    the next statement only and is a binding here. The socket that the
    attribute held from an earlier search loses its last reference at the
    store; that the interpreter then reclaims and closes it is outside the
    model (see [world]). *)
Definition search_address (self_controller : controller)
    (address_input : str) : M value :=
  let '(server_address, resource_url) := parse_address address_input in
  try_except
    (client_socket <- ctl_connect_to_server self_controller server_address ;;
     request_message <- build server_address resource_url ;;
     response_message <-
       ctl_send_request self_controller server_address request_message
         client_socket ;;
     display_html response_message false)
    socket_error
    (λ e, display_html (VStr (py "error.html")) true ;;
          emit (EvPrintExn e) ;;
          ret VNone).

End WebBrowserView.

(** ** Scenarios *)

(** The events of a trace that are reads, by buffer size. *)
Definition reads (t : list event) : list nat :=
  omap (λ ev, match ev with EvRecv _ n => Some n | _ => None end) t.

Definition encoded (s : str) : bytes := default [] (utf8_encode s).

Definition no_fault : op → option errno := λ _, None.

(** The transport fails at the calls [o], with [e]. *)
Definition fault_at (o : op) (e : errno) : op → option errno :=
  λ o', if decide (o' = o) then Some e else None.

Definition localhost : str := lit "127.0.0.1".

(** A network with one listener, on port 80 of 127.0.0.1, that has [reply]
    delivered whatever it is sent. *)
Definition listener (faults : op → option errno) (reply : bytes)
    : address → endpoint :=
  λ a, if decide (a = (localhost, 80%Z))
       then Present faults (λ _, reply) 1024
       else Absent ECONNREFUSED.

(** A codec that encodes no label that is not ASCII: the hosts of the
    scenarios do not need it. *)
Definition no_ace : str → option bytes := λ _, None.

(** A world with no file, no open socket and no call made. *)
Definition boot (net : address → endpoint) : world :=
  World net no_ace (λ _, Raise (OSError ENOENT)) ∅ 3 [].

(** The world after [connect_to_server] reached the listener; the socket
    object is [VSock 3]. *)
Definition connected (faults : op → option errno) (reply : bytes) : world :=
  snd (WebBrowserModel.connect_to_server localhost (boot (listener faults reply))).

Definition ok_reply : bytes :=
  encoded (py "HTTP/1.1 200 OK\r\n\r\n<html><body>hi</body></html>").

Definition plain_reply : bytes :=
  encoded (py "HTTP/1.1 200 OK\r\n\r\nPLAINTEXT").

Definition nested_reply : bytes :=
  encoded (py "HTTP/1.1 200 OK\r\n\r\n<html><p><html></p></html>").

Definition undecodable_reply : bytes := [xff; xfe].

(** A response of 5000 bytes: the marker, then ['a'] repeated. *)
Definition long_reply : bytes :=
  encoded (py "<html>") ++ replicate 4994 "a"%byte.

Definition root_request : str :=
  py "GET / HTTP/1.1\r\nHost: 127.0.0.1\r\n\r\n".

(** ** Events and scenarios of the further properties *)

(** The events after the connection attempt. *)
Definition after_connect (ev : event) : Prop :=
  match ev with
  | EvSocket _ | EvConnect _ _ | EvGetpeername _ | EvClose _ | EvPrint _ =>
    False
  | _ => True
  end.

(** The requests passed to [send], in order. *)
Definition sends (t : list event) : list bytes :=
  omap (λ ev, match ev with EvSend _ d => Some d | _ => None end) t.

(** A listener whose send buffer takes [room] bytes. *)
Definition narrow_listener (room : nat) (reply : bytes)
    : address → endpoint :=
  λ a, if decide (a = (localhost, 80%Z))
       then Present no_fault (λ _, reply) room
       else Absent ECONNREFUSED.

(** A world whose only file is [error.html]. *)
Definition with_error_page (content : str) (net : address → endpoint)
    : world :=
  World net no_ace
    (λ path, if decide (path = py "error.html") then Return content
             else Raise (OSError ENOENT))
    ∅ 3 [].

(** The world after the socket was created and [connect] was called. *)
Definition attempted (host : str) (w : world) : world :=
  log (EvConnect (next_fd w) (host, 80%Z)) (snd (socket_socket w)).

(** The request for [host] and [path], as [build] returns it. *)
Definition request_for (host path : str) : str :=
  lit "GET /" ++ path ++ lit " HTTP/1.1" ++ [13; 10] ++ lit "Host: " ++
  host ++ [13; 10; 13; 10].

(** * Properties *)

(** ** The codec on examples *)

(** Two, three and four byte forms decode to one code point each and encode
    back; an overlong form, a surrogate and a cut sequence are refused, as is
    the encoding of a lone surrogate. *)
Example utf8_examples :
  utf8_decode [xc3; xa3; xe2; x82; xac; xf0; x9f; x98; x80] =
  Some [227; 8364; 128512] ∧
  utf8_encode [227; 8364; 128512] =
  Some [xc3; xa3; xe2; x82; xac; xf0; x9f; x98; x80] ∧
  utf8_decode [xc0; x80] = None ∧
  utf8_decode [xed; xa0; x80] = None ∧
  utf8_decode [xe2; x82] = None ∧
  utf8_encode [55296] = None.
Proof. repeat split; reflexivity. Qed.

(** ** Splitting *)

Lemma pieces_eq c sep' s :
  pieces c sep' s =
  match str_find (c :: sep') s with
  | None => [s]
  | Some i => take i s :: pieces c sep' (drop (i + S (length sep')) s)
  end.
Proof.
  funelim (pieces c sep' s).
  - rewrite Hi. reflexivity.
  - rewrite e. reflexivity.
Qed.

Lemma pieces_inhabited c sep' s : ∃ x l, pieces c sep' s = x :: l.
Proof. rewrite pieces_eq. destruct (str_find _ s); eauto. Qed.

Lemma py_html : py "<html>" = [60; 104; 116; 109; 108; 62].
Proof. reflexivity. Qed.

Ltac case_eqb :=
  repeat match goal with
         | |- context [N.eqb ?a ?b] => destruct (N.eqb a b); simpl
         end.

(** No occurrence of the marker starts inside a text and ends inside a
    marker that follows it: ['<'] occurs in the marker at its start only. *)
Lemma startswith_html_app X Y :
  X ≠ [] →
  startswith (py "<html>") X = false →
  startswith (py "<html>") (X ++ py "<html>" ++ Y) = false.
Proof.
  rewrite py_html. intros HX H.
  destruct X as [|x1 [|x2 [|x3 [|x4 [|x5 [|x6 X]]]]]]; simpl in *;
    try done; try exact H; case_eqb; reflexivity.
Qed.

Lemma str_find_cons sub x s :
  str_find sub (x :: s) =
  if startswith sub (x :: s) then Some 0%nat else S <$> str_find sub s.
Proof. reflexivity. Qed.

Lemma str_find_html_app H B :
  str_find (py "<html>") H = None →
  str_find (py "<html>") (H ++ py "<html>" ++ B) = Some (length H).
Proof.
  induction H as [|x H IH]; intros Hn.
  - reflexivity.
  - rewrite str_find_cons in Hn.
    destruct (startswith (py "<html>") (x :: H)) eqn:E; [done|].
    destruct (str_find (py "<html>") H) eqn:F; [done|].
    rewrite <- app_comm_cons, str_find_cons, app_comm_cons.
    rewrite startswith_html_app by done.
    rewrite IH by done. reflexivity.
Qed.

(** The items of [T.split('<html>')] for [T = H + '<html>' + B]. *)
Lemma split_html_app H B :
  str_find (py "<html>") H = None →
  str_split (H ++ py "<html>" ++ B) (py "<html>") =
  Some (H :: pieces 60 [104; 116; 109; 108; 62] B).
Proof.
  intros Hn. apply str_find_html_app with (B := B) in Hn.
  rewrite py_html in *. unfold str_split.
  rewrite pieces_eq, Hn. rewrite take_app_length.
  change (S (length [104; 116; 109; 108; 62])) with 6%nat.
  rewrite drop_app_add. reflexivity.
Qed.

(** ** Running computations *)

Lemma bind_ret {A B} (a : A) (k : A → M B) w : bind (ret a) k w = k a w.
Proof. reflexivity. Qed.

Lemma bind_returns {A B} (m : M A) (k : A → M B) w a w' :
  m w = (Return a, w') → bind m k w = k a w'.
Proof. unfold bind. intros ->. reflexivity. Qed.

Lemma bind_raises {A B} (m : M A) (k : A → M B) w e w' :
  m w = (Raise e, w') → bind m k w = (Raise e, w').
Proof. unfold bind. intros ->. reflexivity. Qed.

(** ** The body of a response *)

Lemma fstring_body B :
  fstring [FLit (py "<html>")] ++ fstring [FExpr B] = py "<html>" ++ B.
Proof. unfold fstring. simpl flat_map. by rewrite !app_nil_r. Qed.

Lemma split_body_single bs H B w :
  utf8_decode bs = Some (H ++ py "<html>" ++ B) →
  str_find (py "<html>") H = None →
  str_find (py "<html>") B = None →
  WebBrowserModel.split_body bs w = (Return (py "<html>" ++ B), w).
Proof.
  intros Hd HH HB. unfold WebBrowserModel.split_body.
  rewrite Hd. cbn [or_raise]. rewrite bind_ret, split_html_app by done.
  rewrite pieces_eq. rewrite py_html in HB. rewrite HB.
  cbn [or_raise]. rewrite bind_ret. cbn [or_raise unpack2]. rewrite bind_ret.
  cbn [snd]. rewrite fstring_body. reflexivity.
Qed.

Lemma split_body_repeated bs H B w :
  utf8_decode bs = Some (H ++ py "<html>" ++ B) →
  str_find (py "<html>") H = None →
  str_find (py "<html>") B ≠ None →
  WebBrowserModel.split_body bs w = (Raise ValueError, w).
Proof.
  intros Hd HH HB. unfold WebBrowserModel.split_body.
  rewrite Hd. cbn [or_raise]. rewrite bind_ret, split_html_app by done.
  rewrite pieces_eq. rewrite py_html in HB.
  destruct (str_find _ B) as [i|]; [|done].
  destruct (pieces_inhabited 60 [104; 116; 109; 108; 62]
              (drop (i + S (length [104; 116; 109; 108; 62])) B))
    as (x & l & ->).
  reflexivity.
Qed.

Lemma split_body_unmarked bs T w :
  utf8_decode bs = Some T →
  str_find (py "<html>") T = None →
  WebBrowserModel.split_body bs w = (Raise ValueError, w).
Proof.
  intros Hd HT. unfold WebBrowserModel.split_body. rewrite Hd.
  cbn [or_raise]. rewrite bind_ret.
  rewrite py_html in *. unfold str_split. rewrite pieces_eq, HT.
  reflexivity.
Qed.

Lemma split_body_undecodable bs w :
  utf8_decode bs = None →
  WebBrowserModel.split_body bs w = (Raise UnicodeDecodeError, w).
Proof.
  intros Hd. unfold WebBrowserModel.split_body. rewrite Hd. reflexivity.
Qed.

(** [split_body] neither reads nor changes the world, and what it raises is
    no [socket.error]. *)
Lemma split_body_world bs w :
  snd (WebBrowserModel.split_body bs w) = w ∧
  ∀ e, fst (WebBrowserModel.split_body bs w) = Raise e → socket_error e = false.
Proof.
  unfold WebBrowserModel.split_body, bind, or_raise, ret, raise.
  destruct (utf8_decode bs) as [T|]; [|by split; [|intros e [= <-]]].
  destruct (str_split T (py "<html>")) as [l|]; [|by split; [|intros e [= <-]]].
  destruct (unpack2 l); simpl; by split; [|intros e; try intros [= <-]].
Qed.

(** ** [send_request], from the outcome of the exchange *)

Lemma send_request_after_exchange host request_message client_socket w bs w' :
  WebBrowserModel.exchange request_message client_socket w = (Return bs, w') →
  WebBrowserModel.send_request host request_message client_socket w =
  (match fst (WebBrowserModel.split_body bs w') with
   | Return body => Return (VStr body)
   | Raise e => Raise e
   end, w').
Proof.
  intros Hex. unfold WebBrowserModel.send_request, try_except.
  rewrite (bind_returns _ _ _ _ _ Hex).
  destruct (split_body_world bs w') as [Hw He].
  unfold bind at 1.
  destruct (WebBrowserModel.split_body bs w') as [[body|e] w'']; simpl in *;
    subst w''; [reflexivity|].
  rewrite (He e eq_refl). reflexivity.
Qed.

Lemma send_request_exchange_raises host request_message client_socket w e w' :
  WebBrowserModel.exchange request_message client_socket w = (Raise e, w') →
  WebBrowserModel.send_request host request_message client_socket w =
  if socket_error e then (Return (VStr []), w') else (Raise e, w').
Proof.
  intros Hex. unfold WebBrowserModel.send_request, try_except.
  rewrite (bind_raises _ _ _ _ _ Hex). reflexivity.
Qed.

(** C1 (as amended). When the text read is [H + '<html>' + B] and [H] holds
    no ['<html>']: if [B] holds none either, [send_request] returns exactly
    ['<html>' + B] (the heading is dropped, the marker is put back); if [B]
    holds a further ['<html>'], the split has more than two items and the
    unpacking into [heading, body] raises [ValueError], which the handler of
    [send_request] does not catch. *)
Theorem send_request_body_after_marker
    host request_message client_socket w w' bs H B :
  WebBrowserModel.exchange request_message client_socket w = (Return bs, w') →
  utf8_decode bs = Some (H ++ py "<html>" ++ B) →
  str_find (py "<html>") H = None →
  (str_find (py "<html>") B = None →
   WebBrowserModel.send_request host request_message client_socket w =
   (Return (VStr (py "<html>" ++ B)), w')) ∧
  (str_find (py "<html>") B ≠ None →
   WebBrowserModel.send_request host request_message client_socket w =
   (Raise ValueError, w')).
Proof.
  intros Hex Hd HH.
  rewrite (send_request_after_exchange _ _ _ _ _ _ Hex).
  split; intros HB.
  - by rewrite (split_body_single _ _ _ _ Hd HH HB).
  - by rewrite (split_body_repeated _ _ _ _ Hd HH HB).
Qed.

(** The listener answers [HTTP/1.1 200 OK\r\n\r\n<html><body>hi</body></html>]:
    the result is [<html><body>hi</body></html>]. *)
Lemma send_request_body_after_marker_witness :
  WebBrowserModel.send_request localhost root_request (VSock 3)
    (connected no_fault ok_reply) =
  (Return (VStr (py "<html>" ++ lit "<body>hi</body></html>")),
   snd (WebBrowserModel.exchange root_request (VSock 3)
          (connected no_fault ok_reply))).
Proof.
  refine (proj1 (send_request_body_after_marker localhost root_request
                   (VSock 3) (connected no_fault ok_reply) _ ok_reply
                   (py "HTTP/1.1 200 OK\r\n\r\n")
                   (lit "<body>hi</body></html>") _ _ _) _);
    vm_compute; reflexivity.
Defined.

(** C1 (as stated) fails: the listener answers
    [HTTP/1.1 200 OK\r\n\r\n<html><p><html></p></html>]; the heading holds no
    marker, and the result is a [ValueError], not ['<html>' + B]. *)
Lemma first_marker_counterexample :
  WebBrowserModel.exchange root_request (VSock 3)
    (connected no_fault nested_reply) =
  (Return nested_reply,
   snd (WebBrowserModel.exchange root_request (VSock 3)
          (connected no_fault nested_reply))) ∧
  utf8_decode nested_reply =
  Some (py "HTTP/1.1 200 OK\r\n\r\n" ++ py "<html>" ++ lit "<p><html></p></html>") ∧
  str_find (py "<html>") (py "HTTP/1.1 200 OK\r\n\r\n") = None ∧
  fst (WebBrowserModel.send_request localhost root_request (VSock 3)
         (connected no_fault nested_reply)) = Raise ValueError ∧
  fst (WebBrowserModel.send_request localhost root_request (VSock 3)
         (connected no_fault nested_reply)) ≠
  Return (VStr (py "<html>" ++ lit "<p><html></p></html>")).
Proof.
  repeat split; try (vm_compute; reflexivity).
  vm_compute. discriminate.
Qed.

(** C2 (as amended). When the text read holds no ['<html>'], the unpacking
    raises [ValueError]; when the bytes read are no UTF-8 text, decoding
    raises [UnicodeDecodeError]. Neither is a [socket.error], so the handler
    of [send_request] lets it through and the exception reaches the caller:
    the code has no [MalformedResponseError]. *)
Theorem send_request_unmarked_raises
    host request_message client_socket w w' bs :
  WebBrowserModel.exchange request_message client_socket w = (Return bs, w') →
  (utf8_decode bs = None →
   WebBrowserModel.send_request host request_message client_socket w =
   (Raise UnicodeDecodeError, w')) ∧
  (∀ T, utf8_decode bs = Some T → str_find (py "<html>") T = None →
   WebBrowserModel.send_request host request_message client_socket w =
   (Raise ValueError, w')).
Proof.
  intros Hex. rewrite (send_request_after_exchange _ _ _ _ _ _ Hex).
  split.
  - intros Hd. by rewrite (split_body_undecodable _ _ Hd).
  - intros T Hd HT. by rewrite (split_body_unmarked _ _ _ Hd HT).
Qed.

(** The listener answers [HTTP/1.1 200 OK\r\n\r\nPLAINTEXT]. *)
Lemma send_request_unmarked_raises_witness :
  WebBrowserModel.send_request localhost root_request (VSock 3)
    (connected no_fault plain_reply) =
  (Raise ValueError,
   snd (WebBrowserModel.exchange root_request (VSock 3)
          (connected no_fault plain_reply))).
Proof.
  refine (proj2 (send_request_unmarked_raises localhost root_request
                   (VSock 3) (connected no_fault plain_reply) _ plain_reply _)
            (py "HTTP/1.1 200 OK\r\n\r\nPLAINTEXT") _ _);
    vm_compute; reflexivity.
Defined.

(** C2 (as stated) fails: with the answer [HTTP/1.1 200 OK\r\n\r\nPLAINTEXT],
    and with an answer that is no UTF-8 text, [send_request] returns no
    result: a [ValueError] (a [UnicodeDecodeError]) leaves it, passes the
    [except socket.error] clause of [search_address] too, and ends the event
    handler. *)
Lemma malformed_response_counterexample :
  (utf8_decode plain_reply = Some (py "HTTP/1.1 200 OK\r\n\r\nPLAINTEXT") ∧
   str_find (py "<html>") (py "HTTP/1.1 200 OK\r\n\r\nPLAINTEXT") = None ∧
   fst (WebBrowserModel.send_request localhost root_request (VSock 3)
          (connected no_fault plain_reply)) = Raise ValueError ∧
   fst (WebBrowserView.search_address model localhost
          (boot (listener no_fault plain_reply))) = Raise ValueError) ∧
  (utf8_decode undecodable_reply = None ∧
   fst (WebBrowserModel.send_request localhost root_request (VSock 3)
          (connected no_fault undecodable_reply)) = Raise UnicodeDecodeError ∧
   fst (WebBrowserView.search_address model localhost
          (boot (listener no_fault undecodable_reply))) =
   Raise UnicodeDecodeError).
Proof. repeat split; vm_compute; reflexivity. Qed.

(** ** The request message *)

Lemma utf8_encode_app a b :
  utf8_encode (a ++ b) =
  match utf8_encode a, utf8_encode b with
  | Some x, Some y => Some (x ++ y)
  | _, _ => None
  end.
Proof.
  induction a as [|c a IH]; simpl.
  - by destruct (utf8_encode b).
  - rewrite IH. destruct (utf8_encode_char c), (utf8_encode a),
      (utf8_encode b); try done.
    by rewrite app_assoc.
Qed.

(** C3. The request built for [host] and [resourcePath] is exactly
    [GET /] + resourcePath + [ HTTP/1.1] CR LF [Host: ] + host + CR LF CR LF:
    both inputs are inserted as they are and no other header is added. The
    bytes sent for it are the same pieces, encoded. *)
Theorem build_exact host resourcePath w :
  host ≠ [] →
  WebBrowserView.build host resourcePath w =
  (Return (lit "GET /" ++ resourcePath ++ lit " HTTP/1.1" ++ [13; 10] ++
           lit "Host: " ++ host ++ [13; 10; 13; 10]), w) ∧
  ∀ hb pb request_message,
    utf8_encode host = Some hb → utf8_encode resourcePath = Some pb →
    fst (WebBrowserView.build host resourcePath w) = Return request_message →
    utf8_encode request_message =
    Some (list_byte_of_string "GET /" ++ pb ++
          list_byte_of_string " HTTP/1.1" ++ [x0d; x0a] ++
          list_byte_of_string "Host: " ++ hb ++ [x0d; x0a; x0d; x0a]).
Proof.
  intros _.
  assert (WebBrowserView.build host resourcePath w =
    (Return (lit "GET /" ++ resourcePath ++ lit " HTTP/1.1" ++ [13; 10] ++
             lit "Host: " ++ host ++ [13; 10; 13; 10]), w)) as Hb.
  { unfold WebBrowserView.build, ret, fstring. simpl flat_map.
    reflexivity. }
  split; [exact Hb|].
  intros hb pb request_message Hh Hp Hr.
  rewrite Hb in Hr. cbn [fst] in Hr.
  assert (request_message = lit "GET /" ++ resourcePath ++ lit " HTTP/1.1" ++
            [13; 10] ++ lit "Host: " ++ host ++ [13; 10; 13; 10]) as ->
    by congruence.
  rewrite !utf8_encode_app, Hh, Hp. reflexivity.
Qed.

(** The root of 127.0.0.1 (an empty resource path), and a page of it. *)
Lemma build_exact_witness :
  WebBrowserView.build localhost (py "") (boot (listener no_fault ok_reply)) =
  (Return (py "GET / HTTP/1.1\r\nHost: 127.0.0.1\r\n\r\n"),
   boot (listener no_fault ok_reply)) ∧
  WebBrowserView.build localhost (lit "index.html")
    (boot (listener no_fault ok_reply)) =
  (Return (py "GET /index.html HTTP/1.1\r\nHost: 127.0.0.1\r\n\r\n"),
   boot (listener no_fault ok_reply)).
Proof.
  split.
  - refine (proj1 (build_exact localhost (py "")
                     (boot (listener no_fault ok_reply)) _)).
    vm_compute. discriminate.
  - refine (proj1 (build_exact localhost (lit "index.html")
                     (boot (listener no_fault ok_reply)) _)).
    vm_compute. discriminate.
Defined.

(** C8. Building the request is a pure step: in every world it returns, it
    leaves the world as it was, and for the same host and resource path it
    returns the same string, whatever the world. *)
Theorem build_pure host resourcePath w1 w2 :
  ∃ request_message,
    WebBrowserView.build host resourcePath w1 = (Return request_message, w1) ∧
    WebBrowserView.build host resourcePath w2 = (Return request_message, w2).
Proof. eexists. split; reflexivity. Qed.

(** ** The controller *)

(** C9. The wrappers of the controller run the model's method and return
    [None]: what the model returned (the socket, the body) is dropped; what
    it raised is raised, and its effects are kept. *)
Theorem controller_returns_none host request_message client_socket w :
  WebBrowserController.connect_to_server host w =
  (match fst (WebBrowserModel.connect_to_server host w) with
   | Return _ => Return VNone
   | Raise e => Raise e
   end, snd (WebBrowserModel.connect_to_server host w)) ∧
  WebBrowserController.send_request host request_message client_socket w =
  (match fst (WebBrowserModel.send_request host request_message
                client_socket w) with
   | Return _ => Return VNone
   | Raise e => Raise e
   end,
   snd (WebBrowserModel.send_request host request_message client_socket w)).
Proof.
  unfold WebBrowserController.connect_to_server,
    WebBrowserController.send_request, bind, ret.
  split.
  - by destruct (WebBrowserModel.connect_to_server host w) as [[v|e] w'].
  - by destruct (WebBrowserModel.send_request _ _ _ w) as [[v|e] w'].
Qed.

(** A view wired to the controller gets [None] for the socket, and the call
    of [send] on it is an [AttributeError]. *)
Example view_through_controller :
  fst (WebBrowserView.search_address controller_instance localhost
         (boot (listener no_fault ok_reply))) = Raise AttributeError ∧
  fst (WebBrowserView.search_address model localhost
         (boot (listener no_fault ok_reply))) = Return VNone.
Proof. split; vm_compute; reflexivity. Qed.

(** C10. [send_request] does not use its [host] parameter: the outcome and
    the world after it are the same for any two hosts. *)
Theorem send_request_ignores_host host1 host2 request_message client_socket w :
  WebBrowserModel.send_request host1 request_message client_socket w =
  WebBrowserModel.send_request host2 request_message client_socket w.
Proof. reflexivity. Qed.

(** ** Calls on a socket *)

(** What a call on a socket object raises is a [socket.error]. *)
Lemma on_connection_raises {A} o fd (k : socket → connection → M A) w e w' :
  (∀ s c w0 e0 w1, k s c w0 = (Raise e0, w1) → socket_error e0 = true) →
  on_connection o fd k w = (Raise e, w') → socket_error e = true.
Proof.
  intros Hk. unfold on_connection.
  destruct (sockets w !! fd) as [s|]; [|by intros [= <- _]].
  destruct (conn s) as [c|]; [|by intros [= <- _]].
  destruct (fault c o); [by intros [= <- _]|]. apply Hk.
Qed.

Lemma sock_send_raises fd data w e w' :
  sock_send (VSock fd) data w = (Raise e, w') → socket_error e = true.
Proof.
  unfold sock_send, method, bind, emit.
  apply on_connection_raises. intros s c w0 e0 w1 [=].
Qed.

Lemma sock_recv_raises fd n w e w' :
  sock_recv (VSock fd) n w = (Raise e, w') → socket_error e = true.
Proof.
  unfold sock_recv, method, bind, emit.
  apply on_connection_raises. intros s c w0 e0 w1 [=].
Qed.

Lemma on_connection_trace {A} o fd (k : socket → connection → M A) w :
  (∀ s c w0, trace (snd (k s c w0)) = trace w0) →
  trace (snd (on_connection o fd k w)) = trace w.
Proof.
  intros Hk. unfold on_connection.
  destruct (sockets w !! fd) as [s|]; [|done].
  destruct (conn s) as [c|]; [|done].
  destruct (fault c o); [done|]. apply Hk.
Qed.

Lemma sock_send_trace fd data w :
  trace (snd (sock_send (VSock fd) data w)) = trace w ++ [EvSend fd data].
Proof.
  unfold sock_send, method, bind, emit.
  rewrite on_connection_trace; [done|]. by intros s c w0.
Qed.

Lemma sock_recv_trace fd n w :
  trace (snd (sock_recv (VSock fd) n w)) = trace w ++ [EvRecv fd n].
Proof.
  unfold sock_recv, method, bind, emit.
  rewrite on_connection_trace; [done|]. by intros s c w0.
Qed.

(** A read returns at most [bufsize] bytes. *)
Lemma sock_recv_bounded v n w data w' :
  sock_recv v n w = (Return data, w') → (length data ≤ n)%nat.
Proof.
  destruct v as [| |fd]; try done.
  unfold sock_recv, method, bind, emit, on_connection. cbn [fst snd].
  destruct (sockets (log _ w) !! fd) as [s|]; [|done].
  destruct (conn s) as [c|]; [|done].
  destruct (fault c OpRecv); [done|].
  intros [= <- _]. rewrite length_take. lia.
Qed.

(** ** The exchange *)

Lemma exchange_unencodable request_message client_socket w :
  utf8_encode request_message = None →
  WebBrowserModel.exchange request_message client_socket w =
  (Raise UnicodeEncodeError, w).
Proof. intros H. unfold WebBrowserModel.exchange. by rewrite H. Qed.

Lemma exchange_unsent request_message client_socket w rb e w1 :
  utf8_encode request_message = Some rb →
  sock_send client_socket rb w = (Raise e, w1) →
  WebBrowserModel.exchange request_message client_socket w = (Raise e, w1).
Proof.
  intros H Hs. unfold WebBrowserModel.exchange. rewrite H.
  cbn [or_raise]. rewrite bind_ret. by rewrite (bind_raises _ _ _ _ _ Hs).
Qed.

Lemma exchange_sent request_message client_socket w rb n w1 :
  utf8_encode request_message = Some rb →
  sock_send client_socket rb w = (Return n, w1) →
  WebBrowserModel.exchange request_message client_socket w =
  sock_recv client_socket 4096 w1.
Proof.
  intros H Hs. unfold WebBrowserModel.exchange. rewrite H.
  cbn [or_raise]. rewrite bind_ret. by rewrite (bind_returns _ _ _ _ _ Hs).
Qed.

(** [send_request] leaves the world as the exchange left it. *)
Lemma send_request_world host request_message client_socket w :
  snd (WebBrowserModel.send_request host request_message client_socket w) =
  snd (WebBrowserModel.exchange request_message client_socket w).
Proof.
  destruct (WebBrowserModel.exchange request_message client_socket w)
    as [[bs|e] w'] eqn:Hex.
  - by rewrite (send_request_after_exchange _ _ _ _ _ _ Hex).
  - rewrite (send_request_exchange_raises _ _ _ _ _ _ Hex).
    by destruct (socket_error e).
Qed.

(** C4. When the send, or the receive after it, fails at the transport
    ([sock.send] or [sock.recv] raises), [send_request] returns the empty
    string and raises nothing. *)
Theorem send_request_transport_failure host request_message fd w rb :
  utf8_encode request_message = Some rb →
  (∀ e w1, sock_send (VSock fd) rb w = (Raise e, w1) →
     WebBrowserModel.send_request host request_message (VSock fd) w =
     (Return (VStr (py "")), w1)) ∧
  (∀ n w1 e w2,
     sock_send (VSock fd) rb w = (Return n, w1) →
     sock_recv (VSock fd) 4096 w1 = (Raise e, w2) →
     WebBrowserModel.send_request host request_message (VSock fd) w =
     (Return (VStr (py "")), w2)).
Proof.
  intros Hrb. split.
  - intros e w1 Hs.
    rewrite (send_request_exchange_raises _ _ _ _ _ _
               (exchange_unsent _ _ _ _ _ _ Hrb Hs)).
    by rewrite (sock_send_raises _ _ _ _ _ Hs).
  - intros n w1 e w2 Hs Hr.
    assert (WebBrowserModel.exchange request_message (VSock fd) w =
            (Raise e, w2)) as Hex
      by (by rewrite (exchange_sent _ _ _ _ _ _ Hrb Hs)).
    rewrite (send_request_exchange_raises _ _ _ _ _ _ Hex).
    by rewrite (sock_recv_raises _ _ _ _ _ Hr).
Qed.

(** A broken pipe at the send, and a reset by the peer at the receive. *)
Lemma send_request_transport_failure_witness :
  fst (WebBrowserModel.send_request localhost root_request (VSock 3)
         (connected (fault_at OpSend EPIPE) ok_reply)) = Return (VStr []) ∧
  fst (WebBrowserModel.send_request localhost root_request (VSock 3)
         (connected (fault_at OpRecv ECONNRESET) ok_reply)) = Return (VStr []).
Proof.
  split.
  - refine (f_equal fst
      (proj1 (send_request_transport_failure localhost root_request 3
                (connected (fault_at OpSend EPIPE) ok_reply)
                (encoded root_request) _)
         (OSError EPIPE)
         (snd (sock_send (VSock 3) (encoded root_request)
                 (connected (fault_at OpSend EPIPE) ok_reply))) _));
      vm_compute; reflexivity.
  - refine (f_equal fst
      (proj2 (send_request_transport_failure localhost root_request 3
                (connected (fault_at OpRecv ECONNRESET) ok_reply)
                (encoded root_request) _)
         35%nat
         (snd (sock_send (VSock 3) (encoded root_request)
                 (connected (fault_at OpRecv ECONNRESET) ok_reply)))
         (OSError ECONNRESET)
         (snd (WebBrowserModel.exchange root_request (VSock 3)
                 (connected (fault_at OpRecv ECONNRESET) ok_reply))) _ _));
      vm_compute; reflexivity.
Defined.

Lemma sock_send_ok fd s c data w :
  sockets w !! fd = Some s → conn s = Some c → fault c OpSend = None →
  sock_send (VSock fd) data w =
  (Return (length (take (sndbuf c) data)),
   set_socket fd (Socket (Some c) (tx s ++ take (sndbuf c) data) (nread s))
     (log (EvSend fd data) w)).
Proof.
  intros Hs Hc Hf. unfold sock_send, method, bind, emit, on_connection.
  cbn [sockets log]. by rewrite Hs, Hc, Hf.
Qed.

Lemma sock_recv_ok fd s c n w :
  sockets w !! fd = Some s → conn s = Some c → fault c OpRecv = None →
  sock_recv (VSock fd) n w =
  (Return (take n (drop (nread s) (server c (tx s)))),
   set_socket fd
     (Socket (Some c) (tx s)
        (nread s + length (take n (drop (nread s) (server c (tx s))))))
     (log (EvRecv fd n) w)).
Proof.
  intros Hs Hc Hf. unfold sock_recv, method, bind, emit, on_connection.
  cbn [sockets log]. by rewrite Hs, Hc, Hf.
Qed.

Lemma set_socket_lookup fd s w : sockets (set_socket fd s w) !! fd = Some s.
Proof. apply lookup_insert_eq. Qed.

(** On an established connection without transport error, the exchange reads
    the first 4096 of the bytes delivered and not read before, and leaves the
    rest unread. *)
Lemma exchange_established request_message fd s c rb w :
  sockets w !! fd = Some s → conn s = Some c →
  utf8_encode request_message = Some rb →
  fault c OpSend = None → fault c OpRecv = None →
  ∃ w',
    WebBrowserModel.exchange request_message (VSock fd) w =
    (Return (take 4096
               (drop (nread s) (server c (tx s ++ take (sndbuf c) rb)))), w') ∧
    sockets w' !! fd =
    Some (Socket (Some c) (tx s ++ take (sndbuf c) rb)
            (nread s +
             length (take 4096
                       (drop (nread s)
                          (server c (tx s ++ take (sndbuf c) rb)))))).
Proof.
  intros Hs Hc Hrb Hfs Hfr.
  rewrite (exchange_sent _ _ _ _ _ _ Hrb (sock_send_ok _ _ _ _ _ Hs Hc Hfs)).
  erewrite sock_recv_ok; [|apply set_socket_lookup|reflexivity|exact Hfr].
  cbn [tx nread]. eexists. split; [reflexivity|]. apply set_socket_lookup.
Qed.

(** In every case [send_request] reads at most once, asking for 4096
    bytes: once when the request was encoded and the send returned, not at
    all when the encoding or the send fails. *)
Lemma send_request_reads host request_message client_socket w :
  (∃ t,
     trace (snd (WebBrowserModel.send_request host request_message
                   client_socket w)) = trace w ++ t ∧
     (reads t = [] ∨ reads t = [4096%nat])) ∧
  (∀ rb n w1,
     utf8_encode request_message = Some rb →
     sock_send client_socket rb w = (Return n, w1) →
     ∃ fd, client_socket = VSock fd ∧
       trace (snd (WebBrowserModel.send_request host request_message
                     client_socket w)) =
       trace w ++ [EvSend fd rb; EvRecv fd 4096]) ∧
  (∀ rb e w1,
     utf8_encode request_message = Some rb →
     sock_send client_socket rb w = (Raise e, w1) →
     reads (trace (snd (WebBrowserModel.send_request host request_message
                          client_socket w))) = reads (trace w)).
Proof.
  assert (∀ rb n w1,
     utf8_encode request_message = Some rb →
     sock_send client_socket rb w = (Return n, w1) →
     ∃ fd, client_socket = VSock fd ∧
       trace (snd (WebBrowserModel.send_request host request_message
                     client_socket w)) =
       trace w ++ [EvSend fd rb; EvRecv fd 4096]) as Hsent.
  { intros rb n w1 Hrb Hs. destruct client_socket as [| |fd]; try done.
    exists fd. split; [done|].
    rewrite send_request_world, (exchange_sent _ _ _ _ _ _ Hrb Hs).
    rewrite sock_recv_trace.
    pose proof (sock_send_trace fd rb w) as Ht. rewrite Hs in Ht.
    cbn [snd] in Ht. by rewrite Ht, <- app_assoc. }
  assert (∀ rb e w1,
     utf8_encode request_message = Some rb →
     sock_send client_socket rb w = (Raise e, w1) →
     ∃ t, trace (snd (WebBrowserModel.send_request host request_message
                        client_socket w)) = trace w ++ t ∧ reads t = [])
    as Hunsent.
  { intros rb e w1 Hrb Hs.
    rewrite send_request_world, (exchange_unsent _ _ _ _ _ _ Hrb Hs).
    destruct client_socket as [| |fd].
    - injection Hs as _ <-. exists []. by rewrite app_nil_r.
    - injection Hs as _ <-. exists []. by rewrite app_nil_r.
    - pose proof (sock_send_trace fd rb w) as Ht. rewrite Hs in Ht.
      by exists [EvSend fd rb]. }
  repeat split.
  - destruct (utf8_encode request_message) as [rb|] eqn:Hrb.
    + destruct (sock_send client_socket rb w) as [[n|e] w1] eqn:Hs.
      * destruct (Hsent _ _ _ eq_refl Hs) as (fd & _ & Ht).
        exists [EvSend fd rb; EvRecv fd 4096]. split; [done|]. by right.
      * destruct (Hunsent _ _ _ eq_refl Hs) as (t & Ht & Hr).
        exists t. split; [done|]. by left.
    + exists []. rewrite send_request_world, exchange_unencodable by done.
      split; [by rewrite app_nil_r|]. by left.
  - exact Hsent.
  - intros rb e w1 Hrb Hs. destruct (Hunsent _ _ _ Hrb Hs) as (t & -> & Hr).
    unfold reads in *. by rewrite omap_app, Hr, app_nil_r.
Qed.

(** C5. Over an established connection (the socket is open and connected,
    and the request goes out), [send_request] performs one send and then
    exactly one read, which asks for 4096 bytes: there is no loop. When the
    read succeeds it returns at most 4096 bytes, the first of those delivered
    and not read before; the result is computed from these alone and the
    rest is left unread, without any error for the truncation. *)
Theorem send_request_single_bounded_read
    host request_message fd w s c rb :
  sockets w !! fd = Some s → conn s = Some c →
  fault c OpSend = None →
  utf8_encode request_message = Some rb →
  trace (snd (WebBrowserModel.send_request host request_message
                (VSock fd) w)) =
  trace w ++ [EvSend fd rb; EvRecv fd 4096] ∧
  (fault c OpRecv = None →
   ∃ data w',
     data = take 4096 (drop (nread s) (server c (tx s ++ take (sndbuf c) rb))) ∧
     (length data ≤ 4096)%nat ∧
     WebBrowserModel.send_request host request_message (VSock fd) w =
     (match fst (WebBrowserModel.split_body data w') with
      | Return body => Return (VStr body)
      | Raise e => Raise e
      end, w') ∧
     sockets w' !! fd =
     Some (Socket (Some c) (tx s ++ take (sndbuf c) rb)
             (nread s + length data))).
Proof.
  intros Hs Hc Hfs Hrb. split.
  - rewrite send_request_world.
    rewrite (exchange_sent _ _ _ _ _ _ Hrb (sock_send_ok _ _ _ _ _ Hs Hc Hfs)).
    rewrite sock_recv_trace. cbn [trace set_socket log].
    by rewrite <- app_assoc.
  - intros Hfr.
    destruct (exchange_established _ _ _ _ _ _ Hs Hc Hrb Hfs Hfr)
      as (w' & Hex & Hw').
    eexists _, w'. split; [reflexivity|]. split.
    { rewrite length_take. lia. }
    split; [|exact Hw'].
    apply (send_request_after_exchange _ _ _ _ _ _ Hex).
Qed.

(** The listener delivers 5000 bytes: one send, one read of 4096, and the
    bytes after the first 4096 are left unread. *)
Lemma send_request_single_bounded_read_witness :
  trace (snd (WebBrowserModel.send_request localhost root_request (VSock 3)
                (connected no_fault long_reply))) =
  trace (connected no_fault long_reply) ++
  [EvSend 3 (encoded root_request); EvRecv 3 4096] ∧
  ∃ data w',
    data = take 4096 long_reply ∧
    (length data ≤ 4096)%nat ∧
    WebBrowserModel.send_request localhost root_request (VSock 3)
      (connected no_fault long_reply) =
    (match fst (WebBrowserModel.split_body data w') with
     | Return body => Return (VStr body)
     | Raise e => Raise e
     end, w') ∧
    sockets w' !! 3%nat =
    Some (Socket (Some (Connection (localhost, 80%Z) no_fault
                          (λ _, long_reply) 1024))
            (encoded root_request) (length data)).
Proof.
  pose proof (send_request_single_bounded_read localhost root_request 3
                (connected no_fault long_reply)
                (Socket (Some (Connection (localhost, 80%Z) no_fault
                                 (λ _, long_reply) 1024)) [] 0)
                (Connection (localhost, 80%Z) no_fault (λ _, long_reply) 1024)
                (encoded root_request) eq_refl eq_refl eq_refl eq_refl)
    as [Ht Hd].
  split; [exact Ht|exact (Hd eq_refl)].
Defined.

(** A broken pipe at the send: [send_request] returns [''] and does not
    read. *)
Example send_request_broken_pipe :
  fst (WebBrowserModel.send_request localhost root_request (VSock 3)
         (connected (fault_at OpSend EPIPE) ok_reply)) = Return (VStr []) ∧
  trace (snd (WebBrowserModel.send_request localhost root_request (VSock 3)
                (connected (fault_at OpSend EPIPE) ok_reply))) =
  trace (connected (fault_at OpSend EPIPE) ok_reply) ++
  [EvSend 3 (encoded root_request)].
Proof. split; vm_compute; reflexivity. Qed.

(** A response of 5000 bytes: the body returned has 4096 characters, and 4096
    bytes are marked as read. *)
Example long_reply_truncated :
  length long_reply = 5000%nat ∧
  (match fst (WebBrowserModel.send_request localhost root_request (VSock 3)
                (connected no_fault long_reply)) with
   | Return (VStr body) => Some (length body)
   | _ => None
   end) = Some 4096%nat ∧
  (nread <$> sockets (snd (WebBrowserModel.send_request localhost root_request
                             (VSock 3) (connected no_fault long_reply)))
             !! 3%nat) = Some 4096%nat.
Proof. repeat split; vm_compute; reflexivity. Qed.

(** ** Closing *)

Lemma sock_getpeername_raises fd w e w' :
  sock_getpeername (VSock fd) w = (Raise e, w') →
  socket_error e = true ∧ w' = log (EvGetpeername fd) w.
Proof.
  unfold sock_getpeername, method, bind, emit, on_connection, ret.
  cbn [sockets log].
  destruct (sockets w !! fd) as [s|]; [|by intros [= <- <-]].
  destruct (conn s) as [c|]; [|by intros [= <- <-]].
  destruct (fault c OpGetpeername); [by intros [= <- <-]|done].
Qed.

Lemma sock_getpeername_unconnected fd w :
  sockets w !! fd ≫= conn = None →
  ∃ e, sock_getpeername (VSock fd) w = (Raise e, log (EvGetpeername fd) w).
Proof.
  unfold sock_getpeername, method, bind, emit, on_connection, ret.
  cbn [sockets log].
  destruct (sockets w !! fd) as [s|]; simpl; [|by eexists].
  destruct (conn s) as [c|]; [done|by eexists].
Qed.

Lemma sock_close_raises fd w e w' :
  sock_close (VSock fd) w = (Raise e, w') → socket_error e = true.
Proof.
  unfold sock_close, method, bind, emit. cbn [sockets log].
  destruct (sockets w !! fd) as [s|]; [|done].
  destruct (conn s ≫= _); [by intros [= <- _]|done].
Qed.

(** C6. [close_connection] returns (and returns [None]) for every socket
    object, whatever its state: never connected, closed already, reset by
    the peer, or open. Every failure of [getpeername] or [close] is a
    [socket.error], which the handler swallows; when [getpeername] fails
    nothing but the message is done. *)
Theorem close_connection_never_raises fd w :
  ∃ w',
    WebBrowserModel.close_connection (VSock fd) w = (Return VNone, w') ∧
    (∀ e w1, sock_getpeername (VSock fd) w = (Raise e, w1) →
     w' = log (EvPrint (lit "Conexão não existe ou já foi fechada.")) w1) ∧
    (sockets w !! fd ≫= conn = None →
     trace w' =
     trace w ++ [EvGetpeername fd;
                 EvPrint (lit "Conexão não existe ou já foi fechada.")] ∧
     sockets w' = sockets w).
Proof.
  unfold WebBrowserModel.close_connection, try_except.
  destruct (sock_getpeername (VSock fd) w) as [[a|e] w1] eqn:Hg.
  - rewrite (bind_returns _ _ _ _ _ Hg).
    destruct (sock_close (VSock fd) w1) as [[[]|e] w2] eqn:Hc.
    + rewrite (bind_returns _ _ _ _ _ Hc).
      eexists. split; [reflexivity|]. split; [done|]. intros Hn.
      destruct (sock_getpeername_unconnected _ _ Hn) as [e He]. congruence.
    + rewrite (bind_raises _ _ _ _ _ Hc), (sock_close_raises _ _ _ _ Hc).
      eexists. split; [reflexivity|]. split; [done|]. intros Hn.
      destruct (sock_getpeername_unconnected _ _ Hn) as [e' He]. congruence.
  - rewrite (bind_raises _ _ _ _ _ Hg).
    destruct (sock_getpeername_raises _ _ _ _ Hg) as [-> ->].
    eexists. split; [reflexivity|]. split; [by intros e' w1' [= _ <-]|].
    intros _. split; [|reflexivity]. cbn [trace log]. by rewrite <- app_assoc.
Qed.

Lemma close_connection_never_raises_witness :
  ∃ w',
    WebBrowserModel.close_connection (VSock 3)
      (snd (socket_socket (boot (listener no_fault ok_reply)))) =
    (Return VNone, w') ∧
    trace w' =
    [EvSocket 3; EvGetpeername 3;
     EvPrint (lit "Conexão não existe ou já foi fechada.")] ∧
    sockets w' = {[ 3%nat := Socket None [] 0 ]}.
Proof.
  destruct (close_connection_never_raises 3
              (snd (socket_socket (boot (listener no_fault ok_reply)))))
    as (w' & Hr & _ & Hn).
  exists w'. split; [exact Hr|]. apply Hn. reflexivity.
Defined.

(** An object that is no socket has no [getpeername]: the [AttributeError]
    is not a [socket.error]. *)
Example close_connection_no_socket :
  WebBrowserModel.close_connection VNone (boot (listener no_fault ok_reply)) =
  (Raise AttributeError, boot (listener no_fault ok_reply)).
Proof. reflexivity. Qed.

(** A socket created and never connected, a descriptor that is not open, a
    connection reset by the peer and an open connection. *)
Example close_connection_cases :
  fst (WebBrowserModel.close_connection (VSock 3)
         (snd (socket_socket (boot (listener no_fault ok_reply))))) =
  Return VNone ∧
  fst (WebBrowserModel.close_connection (VSock 7)
         (boot (listener no_fault ok_reply))) = Return VNone ∧
  fst (WebBrowserModel.close_connection (VSock 3)
         (connected (fault_at OpGetpeername ENOTCONN) ok_reply)) =
  Return VNone ∧
  fst (WebBrowserModel.close_connection (VSock 3)
         (connected (fault_at OpClose EIO) ok_reply)) = Return VNone ∧
  sockets (snd (WebBrowserModel.close_connection (VSock 3)
                  (connected no_fault ok_reply))) !! 3%nat = None.
Proof. repeat split; vm_compute; reflexivity. Qed.

(** ** Connecting *)

(** What [connect] accepts and what it refuses, whatever the tables of the
    codec: an ASCII host goes as it is, unless it holds NUL. *)
Lemma hostname_ascii ace host :
  is_ascii host = true →
  hostname ace host =
  if existsb (Byte.eqb x00) (ascii_bytes host) then None
  else Some (ascii_bytes host).
Proof. intros H. unfold hostname. by rewrite H. Qed.

(** A label of no character is refused, wherever it stands but last. *)
Lemma encode_labels_empty_label ace result ls ls' :
  encode_labels ace result (ls ++ [] :: ls') = None.
Proof.
  revert result. induction ls as [|l ls IH]; intros result; simpl.
  - reflexivity.
  - destruct (ToASCII ace l); [apply IH|done].
Qed.

(** The hosts ['ä..b'] and ['.ä'] are refused for their empty label, and
    ['a\0'] for its NUL; ['127.0.0.1'], ['a..b'] and the empty host are
    accepted. *)
Example hostname_examples ace :
  hostname ace [228; 46; 46; 98] = None ∧
  hostname ace [46; 228] = None ∧
  hostname ace [97; 0] = None ∧
  hostname ace localhost = Some (ascii_bytes localhost) ∧
  hostname ace [97; 46; 46; 98] = Some (ascii_bytes [97; 46; 46; 98]) ∧
  hostname ace [] = Some [].
Proof.
  repeat split; try reflexivity.
  - unfold hostname, idna_encode.
    change (is_ascii [228; 46; 46; 98]) with false.
    change (labels [228; 46; 46; 98]) with [[228]; []; [98]].
    cbn [last].
    by rewrite (encode_labels_empty_label ace [] [[228]] [[98]] :
                  encode_labels ace [] [[228]; []; [98]] = None).
Qed.

Lemma network_refused w host port :
  network w (host, port) = Refused ↔ hostname (ace w) host = None.
Proof.
  unfold network. cbn [fst].
  destruct (hostname (ace w) host); [|done].
  by destruct (endpoints w (host, port)).
Qed.

Lemma attempted_trace host w :
  trace (attempted host w) =
  trace w ++ [EvSocket (next_fd w); EvConnect (next_fd w) (host, 80%Z)].
Proof. unfold attempted. cbn. by rewrite <- app_assoc. Qed.

(** The three ways of [connect_to_server]. *)
Lemma connect_to_server_run host w :
  WebBrowserModel.connect_to_server host w =
  match network w (host, 80%Z) with
  | Refused => (Raise TypeError, attempted host w)
  | Unreachable e => (Raise (OSError e), attempted host w)
  | Listening f srv room =>
    (Return (VSock (next_fd w)),
     set_socket (next_fd w)
       (Socket (Some (Connection (host, 80%Z) f srv room)) [] 0)
       (attempted host w))
  end.
Proof.
  unfold WebBrowserModel.connect_to_server, WebBrowserModel.PORT, attempted,
    socket_socket, sock_connect, method, bind, emit, ret, network.
  cbn [sockets log endpoints ace trace fst snd].
  destruct (hostname (ace w) host); [|done].
  rewrite lookup_insert_eq. cbn [conn].
  by destruct (endpoints w (host, 80%Z)).
Qed.

(** C7. [connect_to_server] creates one socket and calls [connect] on it
    once, for [host] and port 80, and has no handler and no loop. For a host
    that [connect] accepts: when the attempt fails, the [socket.error] of the
    attempt is raised to the caller as it is, and when it succeeds, the
    socket returned is connected to [(host, 80)]. A host that [connect]
    refuses (its conversion fails: [hostname]) makes the one call raise
    [TypeError], which is no [socket.error], before anything is attempted;
    it reaches the caller likewise. *)
Theorem connect_to_server_single_attempt host w :
  trace (snd (WebBrowserModel.connect_to_server host w)) =
  trace w ++ [EvSocket (next_fd w); EvConnect (next_fd w) (host, 80%Z)] ∧
  (∀ e, network w (host, 80%Z) = Unreachable e →
     is_Some (hostname (ace w) host) ∧
     fst (WebBrowserModel.connect_to_server host w) = Raise (OSError e) ∧
     socket_error (OSError e) = true) ∧
  (∀ f srv room, network w (host, 80%Z) = Listening f srv room →
     is_Some (hostname (ace w) host) ∧
     fst (WebBrowserModel.connect_to_server host w) =
     Return (VSock (next_fd w)) ∧
     sockets (snd (WebBrowserModel.connect_to_server host w)) !! next_fd w =
     Some (Socket (Some (Connection (host, 80%Z) f srv room)) [] 0)) ∧
  (hostname (ace w) host = None →
     network w (host, 80%Z) = Refused ∧
     fst (WebBrowserModel.connect_to_server host w) = Raise TypeError ∧
     socket_error TypeError = false).
Proof.
  rewrite connect_to_server_run.
  assert (network w (host, 80%Z) ≠ Refused → is_Some (hostname (ace w) host))
    as Hacc.
  { rewrite network_refused. by destruct (hostname (ace w) host). }
  pose proof (proj2 (network_refused w host 80%Z)) as Href.
  destruct (network w (host, 80%Z)) as [|e|f srv room];
    cbn [fst snd trace sockets set_socket]; rewrite attempted_trace.
  - split; [done|]. split; [done|]. split; [done|]. done.
  - split; [done|]. split; [|split; [done|]].
    + intros e' [= <-]. split; [by apply Hacc|done].
    + intros Hh. by specialize (Href Hh).
  - split; [done|]. split; [done|]. split.
    + intros f' srv' room' [= <- <- <-]. split; [by apply Hacc|].
      split; [done|]. apply lookup_insert_eq.
    + intros Hh. by specialize (Href Hh).
Qed.

(** A listener on port 80 of 127.0.0.1, none at 10.255.255.1, and the host
    ['ä..b'], which [connect] refuses. *)
Lemma connect_to_server_single_attempt_witness :
  (fst (WebBrowserModel.connect_to_server localhost
          (boot (listener no_fault ok_reply))) = Return (VSock 3) ∧
   sockets (snd (WebBrowserModel.connect_to_server localhost
                   (boot (listener no_fault ok_reply)))) !! 3%nat =
   Some (Socket (Some (Connection (localhost, 80%Z) no_fault
                         (λ _, ok_reply) 1024)) [] 0)) ∧
  (fst (WebBrowserModel.connect_to_server (lit "10.255.255.1")
          (boot (listener no_fault ok_reply))) =
   Raise (OSError ECONNREFUSED) ∧
   socket_error (OSError ECONNREFUSED) = true) ∧
  (fst (WebBrowserModel.connect_to_server [228; 46; 46; 98]
          (boot (listener no_fault ok_reply))) = Raise TypeError ∧
   socket_error TypeError = false) ∧
  trace (snd (WebBrowserModel.connect_to_server (lit "10.255.255.1")
                (boot (listener no_fault ok_reply)))) =
  [EvSocket 3; EvConnect 3 (lit "10.255.255.1", 80%Z)].
Proof.
  split; [|split; [|split]].
  - exact (proj2 (proj1 (proj2 (proj2 (connect_to_server_single_attempt
                                         localhost
                                         (boot (listener no_fault ok_reply)))))
                    no_fault (λ _, ok_reply) 1024%nat eq_refl)).
  - exact (proj2 (proj1 (proj2 (connect_to_server_single_attempt
                                  (lit "10.255.255.1")
                                  (boot (listener no_fault ok_reply))))
                    ECONNREFUSED eq_refl)).
  - exact (proj2 (proj2 (proj2 (proj2 (connect_to_server_single_attempt
                                         [228; 46; 46; 98]
                                         (boot (listener no_fault ok_reply)))))
                    eq_refl)).
  - exact (proj1 (connect_to_server_single_attempt (lit "10.255.255.1")
                    (boot (listener no_fault ok_reply)))).
Defined.

(** The claim as the specification has it, a [ConnectionError] for every
    host string, fails at the host ['ä..b']: [connect] refuses it for its
    empty label, whatever the network and the tables of the codec, and what
    reaches the caller is a [TypeError], which [except socket.error] does not
    catch. *)
Lemma refused_host_counterexample :
  hostname (ace (boot (listener no_fault ok_reply))) [228; 46; 46; 98] =
  None ∧
  fst (WebBrowserModel.connect_to_server [228; 46; 46; 98]
         (boot (listener no_fault ok_reply))) = Raise TypeError ∧
  socket_error TypeError = false ∧
  trace (snd (WebBrowserModel.connect_to_server [228; 46; 46; 98]
                (boot (listener no_fault ok_reply)))) =
  [EvSocket 3; EvConnect 3 ([228; 46; 46; 98], 80%Z)].
Proof. repeat split. Qed.


(** * Further properties *)

(** ** The address bar: [search_address], lines 124 to 139 *)

Lemma startswith_spec p s : startswith p s = true ↔ ∃ r, s = p ++ r.
Proof.
  revert s. induction p as [|a p IH]; intros s; simpl.
  - split; [by exists s|done].
  - destruct s as [|b s].
    + split; [done|]. by intros [r [=]].
    + rewrite andb_true_iff, N.eqb_eq, IH. split.
      * intros [-> [r ->]]. by exists r.
      * intros [r [= -> ->]]. split; [done|]. by exists r.
Qed.

(** Where [str_find] finds [sub], [sub] occurs. *)
Lemma str_find_occurs sub s i :
  str_find sub s = Some i → ∃ X Y, s = X ++ sub ++ Y ∧ length X = i.
Proof.
  revert i. induction s as [|x s IH]; intros i.
  - simpl. destruct (startswith sub []) eqn:E; [|done].
    intros [= <-]. apply startswith_spec in E as [r E]. by exists [], r.
  - rewrite str_find_cons.
    destruct (startswith sub (x :: s)) eqn:E.
    + intros [= <-]. apply startswith_spec in E as [r E]. by exists [], r.
    + destruct (str_find sub s) as [j|]; [|done].
      intros [= <-]. destruct (IH j eq_refl) as (X & Y & -> & <-).
      by exists (x :: X), Y.
Qed.

Lemma str_find_char_cons c x s :
  str_find [c] (x :: s) =
  if c =? x then Some 0%nat else S <$> str_find [c] s.
Proof. rewrite str_find_cons. simpl. by rewrite andb_true_r. Qed.

Lemma str_find_char_none c s : str_find [c] s = None ↔ c ∉ s.
Proof.
  induction s as [|x s IH].
  - split; [intros _; apply not_elem_of_nil|done].
  - rewrite str_find_char_cons, not_elem_of_cons.
    destruct (N.eqb_spec c x) as [->|Hne].
    + split; [done|]. by intros [? _].
    + destruct (str_find [c] s); simpl.
      * split; [done|]. intros [_ H]. by apply IH in H.
      * split; [|done]. intros _. split; [done|]. by apply IH.
Qed.

Lemma str_find_char_app c X Y :
  c ∉ X → str_find [c] (X ++ c :: Y) = Some (length X).
Proof.
  induction X as [|x X IH]; intros HX.
  - simpl app. by rewrite str_find_char_cons, N.eqb_refl.
  - apply not_elem_of_cons in HX as [Hne HX].
    rewrite <- app_comm_cons, str_find_char_cons.
    destruct (N.eqb_spec c x); [done|]. by rewrite IH.
Qed.

Lemma str_find_char_some c s i :
  str_find [c] s = Some i → ∃ X Y, s = X ++ c :: Y ∧ length X = i ∧ c ∉ X.
Proof.
  revert i. induction s as [|x s IH]; intros i; [done|].
  rewrite str_find_char_cons. destruct (N.eqb_spec c x) as [->|Hne].
  - intros [= <-]. exists [], s. repeat split. apply not_elem_of_nil.
  - destruct (str_find [c] s) as [j|]; [|done]. intros [= <-].
    destruct (IH j eq_refl) as (X & Y & -> & <- & HX).
    exists (x :: X), Y. repeat split. by apply not_elem_of_cons.
Qed.

Lemma pieces_char_free c s : c ∉ s → pieces c [] s = [s].
Proof.
  intros H. apply str_find_char_none in H. by rewrite pieces_eq, H.
Qed.

Lemma pieces_char_app c X Y :
  c ∉ X → pieces c [] (X ++ c :: Y) = X :: pieces c [] Y.
Proof.
  intros H. rewrite pieces_eq, (str_find_char_app _ _ _ H).
  rewrite take_app_length. simpl length.
  rewrite drop_app_add. reflexivity.
Qed.

(** No item of [s.split(c)] holds the character [c]. *)
Lemma pieces_char_clean c s : Forall (λ p, c ∉ p) (pieces c [] s).
Proof.
  remember (length s) as n eqn:Hn. revert s Hn.
  induction n as [n IH] using lt_wf_ind. intros s ->.
  destruct (str_find [c] s) as [i|] eqn:E.
  - destruct (str_find_char_some _ _ _ E) as (X & Y & -> & _ & HX).
    rewrite pieces_char_app by done. constructor; [done|].
    apply (IH (length Y)); [|done]. rewrite length_app. simpl. lia.
  - apply str_find_char_none in E. rewrite pieces_char_free by done.
    by constructor.
Qed.

Lemma py_slash : py "/" = [47].
Proof. reflexivity. Qed.

Lemma py_http : py "http://" = [104; 116; 116; 112; 58; 47; 47].
Proof. reflexivity. Qed.

(** An occurrence of ['http://'] brings two slashes, side by side. *)
Lemma http_slashes (s : list N) i :
  str_find (py "http://") s = Some i →
  s !! (i + 5)%nat = Some 47 ∧ s !! (i + 6)%nat = Some 47.
Proof.
  intros H. destruct (str_find_occurs _ _ _ H) as (X & Y & -> & <-).
  rewrite py_http. split.
  - rewrite lookup_app_r by lia.
    by replace (length X + 5 - length X)%nat with 5%nat by lia.
  - rewrite lookup_app_r by lia.
    by replace (length X + 6 - length X)%nat with 6%nat by lia.
Qed.

Lemma no_slash_no_http (s : list N) : 47 ∉ s → str_find (py "http://") s = None.
Proof.
  intros Hs. destruct (str_find (py "http://") s) as [i|] eqn:E; [|done].
  destruct (http_slashes _ _ E) as [H5 _].
  destruct Hs. by apply list_elem_of_lookup_2 in H5.
Qed.

Lemma one_slash_index (h p : list N) j :
  47 ∉ h → 47 ∉ p → (h ++ 47 :: p) !! j = Some 47 → j = length h.
Proof.
  intros Hh Hp Hj. destruct (decide (j < length h)%nat) as [Hlt|Hge].
  - rewrite lookup_app_l in Hj by done.
    destruct Hh. by apply list_elem_of_lookup_2 in Hj.
  - rewrite lookup_app_r in Hj by lia.
    destruct (j - length h)%nat as [|k] eqn:Hk; [lia|].
    simpl in Hj. destruct Hp. by apply list_elem_of_lookup_2 in Hj.
Qed.

Lemma one_slash_no_http (h p : list N) :
  47 ∉ h → 47 ∉ p → str_find (py "http://") (h ++ 47 :: p) = None.
Proof.
  intros Hh Hp.
  destruct (str_find (py "http://") (h ++ 47 :: p)) as [i|] eqn:E; [|done].
  destruct (http_slashes _ _ E) as [H5 H6].
  apply (one_slash_index _ _ _ Hh Hp) in H5.
  apply (one_slash_index _ _ _ Hh Hp) in H6. lia.
Qed.

(** The two branches of the prefix test. *)
Lemma parse_address_plain a :
  str_find (py "http://") a = None →
  WebBrowserView.parse_address a =
  match pieces 47 [] a with
  | [x] => (x, [])
  | [x; y] => (x, y)
  | _ => ([], [])
  end.
Proof. intros H. unfold WebBrowserView.parse_address. by rewrite H. Qed.

Lemma parse_address_prefixed r :
  WebBrowserView.parse_address (py "http://" ++ r) =
  match pieces 47 [] r with
  | [x] => (x, [])
  | [x; y] => (x, y)
  | _ => ([], [])
  end.
Proof.
  unfold WebBrowserView.parse_address.
  assert (str_find (py "http://") (py "http://" ++ r) = Some 0%nat) as ->.
  { rewrite py_http. reflexivity. }
  by rewrite py_http.
Qed.

Lemma parse_address_cases a :
  ∃ a', WebBrowserView.parse_address a =
        match pieces 47 [] a' with
        | [x] => (x, [])
        | [x; y] => (x, y)
        | _ => ([], [])
        end.
Proof.
  unfold WebBrowserView.parse_address.
  destruct (str_find (py "http://") a); by eexists.
Qed.

(** X1. Whatever is typed in the address bar, neither the host nor the
    resource path that [search_address] works with holds a ['/']. *)
Theorem parse_address_slash_free address_input :
  (47 ∉ fst (WebBrowserView.parse_address address_input)) ∧
  (47 ∉ snd (WebBrowserView.parse_address address_input)).
Proof.
  destruct (parse_address_cases address_input) as [a' ->].
  pose proof (pieces_char_clean 47 a') as HF.
  destruct (pieces 47 [] a') as [|x [|y [|z l]]]; simpl;
    try (split; apply not_elem_of_nil).
  - apply Forall_cons in HF as [Hx _]. split; [done|apply not_elem_of_nil].
  - apply Forall_cons in HF as [Hx HF]. apply Forall_cons in HF as [Hy _].
    done.
Qed.

(** X2. An address without ['/'] is taken whole as the host, with the empty
    resource path; a leading ['http://'] is removed first. *)
Theorem parse_address_host (h : list N) :
  47 ∉ h →
  WebBrowserView.parse_address h = (h, []) ∧
  WebBrowserView.parse_address (py "http://" ++ h) = (h, []).
Proof.
  intros Hh. split.
  - rewrite parse_address_plain by by apply no_slash_no_http.
    by rewrite pieces_char_free.
  - by rewrite parse_address_prefixed, pieces_char_free.
Qed.

Lemma parse_address_host_witness :
  WebBrowserView.parse_address localhost = (localhost, []) ∧
  WebBrowserView.parse_address (py "http://" ++ localhost) = (localhost, []).
Proof.
  apply (parse_address_host localhost). vm_compute.
  intros H. repeat (apply elem_of_cons in H as [H|H]; [discriminate|]).
  by apply elem_of_nil in H.
Defined.

(** X3. An address [host/path] with no other ['/'] gives that host and that
    path, with or without a leading ['http://']; the path may be empty. *)
Theorem parse_address_host_path (h p : list N) :
  47 ∉ h → 47 ∉ p →
  WebBrowserView.parse_address (h ++ py "/" ++ p) = (h, p) ∧
  WebBrowserView.parse_address (py "http://" ++ h ++ py "/" ++ p) = (h, p).
Proof.
  intros Hh Hp. rewrite py_slash. simpl app. split.
  - rewrite parse_address_plain by by apply one_slash_no_http.
    by rewrite pieces_char_app, pieces_char_free.
  - change (104 :: 116 :: 116 :: 112 :: 58 :: 47 :: 47 :: h ++ 47 :: p)
      with (py "http://" ++ h ++ 47 :: p).
    by rewrite parse_address_prefixed, pieces_char_app, pieces_char_free.
Qed.

(** X4. An address with two or more ['/'] after the host (a path of several
    segments) gives the empty host and the empty path: the page asked for is
    not the one requested. *)
Theorem parse_address_deep_path (h p q : list N) :
  47 ∉ h → 47 ∉ p →
  WebBrowserView.parse_address
    (py "http://" ++ h ++ py "/" ++ p ++ py "/" ++ q) = ([], []) ∧
  (str_find (py "http://") (h ++ py "/" ++ p ++ py "/" ++ q) = None →
   WebBrowserView.parse_address (h ++ py "/" ++ p ++ py "/" ++ q) = ([], [])).
Proof.
  intros Hh Hp. rewrite py_slash.
  assert (∀ r, pieces 47 [] (h ++ [47] ++ p ++ [47] ++ r) =
               h :: p :: pieces 47 [] r) as Hpc.
  { intros r. simpl app. by rewrite !pieces_char_app. }
  split.
  - rewrite parse_address_prefixed, Hpc.
    by destruct (pieces_inhabited 47 [] q) as (x & l & ->).
  - intros Hn. rewrite parse_address_plain, Hpc by done.
    by destruct (pieces_inhabited 47 [] q) as (x & l & ->).
Qed.

Ltac decide_it := apply (bool_decide_unpack _); vm_compute; exact I.

Lemma parse_address_host_path_witness :
  WebBrowserView.parse_address (localhost ++ py "/" ++ lit "index.html") =
  (localhost, lit "index.html") ∧
  WebBrowserView.parse_address
    (py "http://" ++ localhost ++ py "/" ++ lit "index.html") =
  (localhost, lit "index.html").
Proof.
  apply (parse_address_host_path localhost (lit "index.html")); decide_it.
Defined.

Lemma parse_address_deep_path_witness :
  WebBrowserView.parse_address
    (py "http://" ++ localhost ++ py "/" ++ lit "docs" ++ py "/" ++
     lit "index.html") = ([], []).
Proof.
  apply (parse_address_deep_path localhost (lit "docs") (lit "index.html"));
    decide_it.
Defined.

(** ** The steps of [search_address] *)

Lemma build_run host path w :
  WebBrowserView.build host path w = (Return (request_for host path), w).
Proof.
  unfold WebBrowserView.build, request_for, ret, fstring. simpl flat_map.
  reflexivity.
Qed.

(** What [send_request] raises is no [socket.error]. *)
Lemma send_request_raises host request_message client_socket w e w' :
  WebBrowserModel.send_request host request_message client_socket w =
  (Raise e, w') → socket_error e = false.
Proof.
  destruct (WebBrowserModel.exchange request_message client_socket w)
    as [[bs|e0] w0] eqn:Hex.
  - rewrite (send_request_after_exchange _ _ _ _ _ _ Hex).
    destruct (split_body_world bs w0) as [_ He].
    destruct (fst (WebBrowserModel.split_body bs w0)) as [b|e1]; [done|].
    intros [= <- _]. by apply He.
  - rewrite (send_request_exchange_raises _ _ _ _ _ _ Hex).
    destruct (socket_error e0) eqn:E; [done|]. by intros [= <- _].
Qed.

(** The view wired to the model, once the parsed host is reached. *)
Lemma search_address_connected address_input host path w f srv room :
  WebBrowserView.parse_address address_input = (host, path) →
  network w (host, 80%Z) = Listening f srv room →
  WebBrowserView.search_address model address_input w =
  match WebBrowserModel.send_request host (request_for host path)
          (VSock (next_fd w))
          (set_socket (next_fd w)
             (Socket (Some (Connection (host, 80%Z) f srv room)) [] 0)
             (attempted host w)) with
  | (Return response_message, w') =>
    (Return VNone, log (EvSetHtml response_message) w')
  | (Raise e, w') => (Raise e, w')
  end.
Proof.
  intros Hp Hn. unfold WebBrowserView.search_address. rewrite Hp.
  unfold try_except, bind at 1. cbn [model ctl_connect_to_server].
  rewrite connect_to_server_run, Hn.
  unfold bind at 1. rewrite build_run. cbn [model ctl_send_request].
  unfold bind at 1.
  destruct (WebBrowserModel.send_request _ _ _ _) as [[r|e] w'] eqn:Hs.
  - reflexivity.
  - by rewrite (send_request_raises _ _ _ _ _ _ Hs).
Qed.

(** The view wired to the model, when the parsed host is not reached. *)
Lemma search_address_unreachable address_input host path w e :
  WebBrowserView.parse_address address_input = (host, path) →
  network w (host, 80%Z) = Unreachable e →
  WebBrowserView.search_address model address_input w =
  match files w (py "error.html") with
  | Return html_content =>
    (Return VNone,
     log (EvPrintExn (OSError e))
       (log (EvSetHtml (VStr html_content))
          (log (EvOpen (py "error.html")) (attempted host w))))
  | Raise e' => (Raise e', log (EvOpen (py "error.html")) (attempted host w))
  end.
Proof.
  intros Hp Hn. unfold WebBrowserView.search_address. rewrite Hp.
  unfold try_except, bind at 1. cbn [model ctl_connect_to_server].
  rewrite connect_to_server_run, Hn. cbn [socket_error].
  unfold WebBrowserView.display_html, read_text, bind, emit, ret.
  cbn [files log attempted socket_socket snd fst].
  by destruct (files w (py "error.html")).
Qed.

(** The view wired to the model, when [connect] refuses the parsed host: the
    [TypeError] is no [socket.error] and passes the handler. *)
Lemma search_address_refused address_input host path w :
  WebBrowserView.parse_address address_input = (host, path) →
  network w (host, 80%Z) = Refused →
  WebBrowserView.search_address model address_input w =
  (Raise TypeError, attempted host w).
Proof.
  intros Hp Hn. unfold WebBrowserView.search_address. rewrite Hp.
  unfold try_except, bind at 1. cbn [model ctl_connect_to_server].
  by rewrite connect_to_server_run, Hn.
Qed.

Lemma exchange_run request_message fd s c rb w :
  sockets w !! fd = Some s → conn s = Some c →
  utf8_encode request_message = Some rb →
  fault c OpSend = None → fault c OpRecv = None →
  WebBrowserModel.exchange request_message (VSock fd) w =
  (Return (take 4096 (drop (nread s) (server c (tx s ++ take (sndbuf c) rb)))),
   set_socket fd
     (Socket (Some c) (tx s ++ take (sndbuf c) rb)
        (nread s +
         length (take 4096
                   (drop (nread s) (server c (tx s ++ take (sndbuf c) rb))))))
     (log (EvRecv fd 4096)
        (set_socket fd (Socket (Some c) (tx s ++ take (sndbuf c) rb) (nread s))
           (log (EvSend fd rb) w)))).
Proof.
  intros Hs Hc Hrb Hfs Hfr.
  rewrite (exchange_sent _ _ _ _ _ _ Hrb (sock_send_ok _ _ _ _ _ Hs Hc Hfs)).
  erewrite sock_recv_ok; [|apply set_socket_lookup|reflexivity|exact Hfr].
  reflexivity.
Qed.

Lemma sock_send_fault fd s c data w e :
  sockets w !! fd = Some s → conn s = Some c → fault c OpSend = Some e →
  sock_send (VSock fd) data w = (Raise (OSError e), log (EvSend fd data) w).
Proof.
  intros Hs Hc Hf. unfold sock_send, method, bind, emit, on_connection.
  cbn [sockets log]. by rewrite Hs, Hc, Hf.
Qed.

Lemma sock_recv_fault fd s c n w e :
  sockets w !! fd = Some s → conn s = Some c → fault c OpRecv = Some e →
  sock_recv (VSock fd) n w = (Raise (OSError e), log (EvRecv fd n) w).
Proof.
  intros Hs Hc Hf. unfold sock_recv, method, bind, emit, on_connection.
  cbn [sockets log]. by rewrite Hs, Hc, Hf.
Qed.

(** X5. The whole of a successful search, for the view as it is wired (to
    the model): when the parsed host listens, the transport is sound and the
    first 4096 bytes of the answer are a heading, one ['<html>'] and a body
    without ['<html>'], then [search_address] makes one socket, one
    [connect], one [send], one [recv(4096)], and shows ['<html>' + B]. *)
Theorem search_address_shows_body
    address_input host path w f srv room rb H B :
  WebBrowserView.parse_address address_input = (host, path) →
  network w (host, 80%Z) = Listening f srv room →
  f OpSend = None → f OpRecv = None →
  utf8_encode (request_for host path) = Some rb →
  utf8_decode (take 4096 (srv (take room rb))) =
  Some (H ++ py "<html>" ++ B) →
  str_find (py "<html>") H = None →
  str_find (py "<html>") B = None →
  ∃ w',
    WebBrowserView.search_address model address_input w = (Return VNone, w') ∧
    trace w' =
    trace w ++ [EvSocket (next_fd w); EvConnect (next_fd w) (host, 80%Z);
                EvSend (next_fd w) rb; EvRecv (next_fd w) 4096;
                EvSetHtml (VStr (py "<html>" ++ B))].
Proof.
  intros Hp Hn Hfs Hfr Hrb Hd HH HB.
  rewrite (search_address_connected _ _ _ _ _ _ _ Hp Hn).
  erewrite send_request_after_exchange;
    [|eapply exchange_run;
      [apply set_socket_lookup|reflexivity|exact Hrb|exact Hfs|exact Hfr]].
  cbn [tx nread sndbuf server app drop].
  rewrite (split_body_single _ _ _ _ Hd HH HB). cbn [fst].
  eexists. split; [reflexivity|].
  cbn [trace log set_socket]. rewrite attempted_trace.
  by rewrite <- !app_assoc.
Qed.

Lemma search_address_shows_body_witness :
  ∃ w',
    WebBrowserView.search_address model localhost
      (boot (listener no_fault ok_reply)) = (Return VNone, w') ∧
    trace w' =
    [EvSocket 3; EvConnect 3 (localhost, 80%Z);
     EvSend 3 (encoded root_request); EvRecv 3 4096;
     EvSetHtml (VStr (py "<html><body>hi</body></html>"))].
Proof.
  refine (search_address_shows_body localhost localhost []
            (boot (listener no_fault ok_reply)) no_fault (λ _, ok_reply) 1024
            (encoded root_request) (py "HTTP/1.1 200 OK\r\n\r\n")
            (lit "<body>hi</body></html>") _ _ _ _ _ _ _ _);
    vm_compute; reflexivity.
Defined.

(** X6. When the parsed host is one that [connect] accepts, the connection
    attempt fails with the [socket.error] [e] and [error.html] can be read,
    [search_address] shows the content of [error.html], prints the error and
    returns; nothing is sent or received. (A host that [connect] refuses is
    another case, [network w (host, 80) = Refused]: see X22.) *)
Theorem search_address_error_page address_input host path w e html_content :
  WebBrowserView.parse_address address_input = (host, path) →
  network w (host, 80%Z) = Unreachable e →
  files w (py "error.html") = Return html_content →
  ∃ w',
    WebBrowserView.search_address model address_input w = (Return VNone, w') ∧
    trace w' =
    trace w ++ [EvSocket (next_fd w); EvConnect (next_fd w) (host, 80%Z);
                EvOpen (py "error.html"); EvSetHtml (VStr html_content);
                EvPrintExn (OSError e)].
Proof.
  intros Hp Hn Hf.
  rewrite (search_address_unreachable _ _ _ _ _ Hp Hn), Hf.
  eexists. split; [reflexivity|].
  cbn [trace log]. rewrite attempted_trace. by rewrite <- !app_assoc.
Qed.

Lemma search_address_error_page_witness :
  ∃ w',
    WebBrowserView.search_address model (lit "10.255.255.1")
      (with_error_page (lit "<html>error</html>") (listener no_fault ok_reply))
    = (Return VNone, w') ∧
    trace w' =
    [EvSocket 3; EvConnect 3 (lit "10.255.255.1", 80%Z);
     EvOpen (py "error.html"); EvSetHtml (VStr (lit "<html>error</html>"));
     EvPrintExn (OSError ECONNREFUSED)].
Proof.
  refine (search_address_error_page (lit "10.255.255.1") (lit "10.255.255.1")
            [] (with_error_page (lit "<html>error</html>")
                  (listener no_fault ok_reply))
            ECONNREFUSED (lit "<html>error</html>") _ _ _);
    vm_compute; reflexivity.
Defined.

(** X7. When the parsed host is one that [connect] accepts, the connection
    attempt fails with a [socket.error] and [error.html] cannot be read, the
    exception of [open] is raised inside the handler and leaves
    [search_address]: nothing is shown and the error is not printed. (A host
    that [connect] refuses never enters the handler: see X22.) *)
Theorem search_address_error_page_missing address_input host path w e e' :
  WebBrowserView.parse_address address_input = (host, path) →
  network w (host, 80%Z) = Unreachable e →
  files w (py "error.html") = Raise e' →
  ∃ w',
    WebBrowserView.search_address model address_input w = (Raise e', w') ∧
    trace w' =
    trace w ++ [EvSocket (next_fd w); EvConnect (next_fd w) (host, 80%Z);
                EvOpen (py "error.html")].
Proof.
  intros Hp Hn Hf.
  rewrite (search_address_unreachable _ _ _ _ _ Hp Hn), Hf.
  eexists. split; [reflexivity|].
  cbn [trace log]. rewrite attempted_trace. by rewrite <- !app_assoc.
Qed.

Lemma search_address_error_page_missing_witness :
  ∃ w',
    WebBrowserView.search_address model (lit "10.255.255.1")
      (boot (listener no_fault ok_reply)) = (Raise (OSError ENOENT), w') ∧
    trace w' =
    [EvSocket 3; EvConnect 3 (lit "10.255.255.1", 80%Z);
     EvOpen (py "error.html")].
Proof.
  refine (search_address_error_page_missing (lit "10.255.255.1")
            (lit "10.255.255.1") [] (boot (listener no_fault ok_reply))
            ECONNREFUSED (OSError ENOENT) _ _ _);
    vm_compute; reflexivity.
Defined.

(** X22. When [connect] refuses the parsed host, the [TypeError] of
    [connect] leaves [search_address]: it is no [socket.error], so the
    handler is not entered, [error.html] is not opened, nothing is shown and
    nothing is printed, whatever the network and the files. *)
Theorem search_address_refused_host address_input host path w :
  WebBrowserView.parse_address address_input = (host, path) →
  hostname (ace w) host = None →
  ∃ w',
    WebBrowserView.search_address model address_input w =
    (Raise TypeError, w') ∧
    socket_error TypeError = false ∧
    trace w' =
    trace w ++ [EvSocket (next_fd w); EvConnect (next_fd w) (host, 80%Z)].
Proof.
  intros Hp Hh. apply (network_refused w host 80%Z) in Hh.
  rewrite (search_address_refused _ _ _ _ Hp Hh).
  eexists. split; [reflexivity|]. split; [done|]. apply attempted_trace.
Qed.

(** The address ['ä..b'], with [error.html] in place. *)
Lemma search_address_refused_host_witness :
  ∃ w',
    WebBrowserView.search_address model [228; 46; 46; 98]
      (with_error_page (lit "<html>error</html>") (listener no_fault ok_reply))
    = (Raise TypeError, w') ∧
    socket_error TypeError = false ∧
    trace w' = [EvSocket 3; EvConnect 3 ([228; 46; 46; 98], 80%Z)].
Proof.
  refine (search_address_refused_host [228; 46; 46; 98] [228; 46; 46; 98] []
            (with_error_page (lit "<html>error</html>")
               (listener no_fault ok_reply)) _ _);
    vm_compute; reflexivity.
Defined.

(** X8. A transport failure after the connection does not lead to the error
    page: [send_request] has turned it into [''], and [search_address] shows
    the empty document and returns. *)
Theorem search_address_blank_page address_input host path w f srv room rb :
  WebBrowserView.parse_address address_input = (host, path) →
  network w (host, 80%Z) = Listening f srv room →
  utf8_encode (request_for host path) = Some rb →
  (∀ e, f OpSend = Some e →
     ∃ w',
       WebBrowserView.search_address model address_input w =
       (Return VNone, w') ∧
       trace w' =
       trace w ++ [EvSocket (next_fd w); EvConnect (next_fd w) (host, 80%Z);
                   EvSend (next_fd w) rb; EvSetHtml (VStr [])]) ∧
  (∀ e, f OpSend = None → f OpRecv = Some e →
     ∃ w',
       WebBrowserView.search_address model address_input w =
       (Return VNone, w') ∧
       trace w' =
       trace w ++ [EvSocket (next_fd w); EvConnect (next_fd w) (host, 80%Z);
                   EvSend (next_fd w) rb; EvRecv (next_fd w) 4096;
                   EvSetHtml (VStr [])]).
Proof.
  intros Hp Hn Hrb. split.
  - intros e Hf. rewrite (search_address_connected _ _ _ _ _ _ _ Hp Hn).
    erewrite send_request_exchange_raises;
      [|eapply exchange_unsent; [exact Hrb|];
        eapply sock_send_fault; [apply set_socket_lookup|reflexivity|exact Hf]].
    cbn [socket_error]. eexists. split; [reflexivity|].
    cbn [trace log set_socket]. rewrite attempted_trace.
    by rewrite <- !app_assoc.
  - intros e Hfs Hfr. rewrite (search_address_connected _ _ _ _ _ _ _ Hp Hn).
    erewrite send_request_exchange_raises.
    2:{ erewrite exchange_sent; [|exact Hrb|].
        2:{ eapply sock_send_ok; [apply set_socket_lookup|reflexivity|exact Hfs]. }
        eapply sock_recv_fault; [apply set_socket_lookup|reflexivity|exact Hfr]. }
    cbn [socket_error]. eexists. split; [reflexivity|].
    cbn [trace log set_socket]. rewrite attempted_trace.
    by rewrite <- !app_assoc.
Qed.

Lemma search_address_blank_page_witness :
  (∃ w',
     WebBrowserView.search_address model localhost
       (boot (listener (fault_at OpSend EPIPE) ok_reply)) =
     (Return VNone, w') ∧
     trace w' =
     [EvSocket 3; EvConnect 3 (localhost, 80%Z);
      EvSend 3 (encoded root_request); EvSetHtml (VStr [])]) ∧
  (∃ w',
     WebBrowserView.search_address model localhost
       (boot (listener (fault_at OpRecv ECONNRESET) ok_reply)) =
     (Return VNone, w') ∧
     trace w' =
     [EvSocket 3; EvConnect 3 (localhost, 80%Z);
      EvSend 3 (encoded root_request); EvRecv 3 4096; EvSetHtml (VStr [])]).
Proof.
  split.
  - refine (proj1 (search_address_blank_page localhost localhost []
                     (boot (listener (fault_at OpSend EPIPE) ok_reply))
                     (fault_at OpSend EPIPE) (λ _, ok_reply) 1024
                     (encoded root_request) _ _ _) EPIPE _);
      vm_compute; reflexivity.
  - refine (proj2 (search_address_blank_page localhost localhost []
                     (boot (listener (fault_at OpRecv ECONNRESET) ok_reply))
                     (fault_at OpRecv ECONNRESET) (λ _, ok_reply) 1024
                     (encoded root_request) _ _ _) ECONNRESET _ _);
      vm_compute; reflexivity.
Defined.

(** ** What [send_request] does to the sockets and to the trace *)

(** A call on a connected socket changes no other socket, and leaves the
    socket connected as it was. *)
Lemma on_connection_sockets {A} o fd (k : socket → connection → M A) w fd' :
  (∀ s c w0, sockets w0 !! fd = Some s → conn s = Some c →
     (fd' ≠ fd → sockets (snd (k s c w0)) !! fd' = sockets w0 !! fd') ∧
     conn <$> sockets (snd (k s c w0)) !! fd = Some (Some c)) →
  (fd' ≠ fd →
   sockets (snd (on_connection o fd k w)) !! fd' = sockets w !! fd') ∧
  conn <$> sockets (snd (on_connection o fd k w)) !! fd =
  conn <$> sockets w !! fd.
Proof.
  intros Hk. unfold on_connection.
  destruct (sockets w !! fd) as [s|] eqn:Hs; [|cbn [snd]; by rewrite Hs].
  destruct (conn s) as [c|] eqn:Hc; [|cbn [snd]; by rewrite Hs].
  destruct (fault c o); [cbn [snd]; by rewrite Hs|].
  destruct (Hk s c w Hs Hc) as [H1 H2]. split; [done|].
  rewrite H2. simpl. by rewrite Hc.
Qed.

Lemma sock_send_sockets v data w fd fd' :
  v = VSock fd →
  (fd' ≠ fd → sockets (snd (sock_send v data w)) !! fd' = sockets w !! fd') ∧
  conn <$> sockets (snd (sock_send v data w)) !! fd =
  conn <$> sockets w !! fd.
Proof.
  intros ->. unfold sock_send, method, bind, emit. cbn [fst snd].
  apply (on_connection_sockets OpSend fd _ (log (EvSend fd data) w)).
  intros s c w0 Hs Hc. cbn [snd set_socket sockets]. split.
  - intros Hne. by rewrite lookup_insert_ne.
  - rewrite lookup_insert_eq. simpl. by rewrite Hc.
Qed.

Lemma sock_recv_sockets v n w fd fd' :
  v = VSock fd →
  (fd' ≠ fd → sockets (snd (sock_recv v n w)) !! fd' = sockets w !! fd') ∧
  conn <$> sockets (snd (sock_recv v n w)) !! fd = conn <$> sockets w !! fd.
Proof.
  intros ->. unfold sock_recv, method, bind, emit. cbn [fst snd].
  apply (on_connection_sockets OpRecv fd _ (log (EvRecv fd n) w)).
  intros s c w0 Hs Hc. cbn [snd set_socket sockets]. split.
  - intros Hne. by rewrite lookup_insert_ne.
  - rewrite lookup_insert_eq. simpl. by rewrite Hc.
Qed.

(** The exchange changes no other socket, and leaves the socket connected
    as it was. *)
Lemma exchange_sockets request_message fd w fd' :
  (fd' ≠ fd →
   sockets (snd (WebBrowserModel.exchange request_message (VSock fd) w))
     !! fd' = sockets w !! fd') ∧
  conn <$> sockets (snd (WebBrowserModel.exchange request_message
                           (VSock fd) w)) !! fd =
  conn <$> sockets w !! fd.
Proof.
  destruct (utf8_encode request_message) as [rb|] eqn:Hrb.
  - destruct (sock_send (VSock fd) rb w) as [[n|e] w1] eqn:Hs.
    + rewrite (exchange_sent _ _ _ _ _ _ Hrb Hs).
      destruct (sock_send_sockets (VSock fd) rb w fd fd' eq_refl) as [S1 S2].
      destruct (sock_recv_sockets (VSock fd) 4096 w1 fd fd' eq_refl)
        as [R1 R2].
      rewrite Hs in S1, S2. cbn [snd] in S1, S2. split.
      * intros Hne. by rewrite R1, S1.
      * by rewrite R2, S2.
    + rewrite (exchange_unsent _ _ _ _ _ _ Hrb Hs).
      destruct (sock_send_sockets (VSock fd) rb w fd fd' eq_refl) as [S1 S2].
      by rewrite Hs in S1, S2.
  - by rewrite exchange_unencodable.
Qed.

(** X9. [send_request] closes nothing and touches no other socket: every
    other socket is as before, and the socket it was given is open, and
    connected to the same peer, exactly if it was before. *)
Theorem send_request_keeps_sockets host request_message fd w fd' :
  (fd' ≠ fd →
   sockets (snd (WebBrowserModel.send_request host request_message
                   (VSock fd) w)) !! fd' = sockets w !! fd') ∧
  conn <$> sockets (snd (WebBrowserModel.send_request host request_message
                           (VSock fd) w)) !! fd =
  conn <$> sockets w !! fd.
Proof.
  rewrite send_request_world.
  destruct (exchange_sockets request_message fd w fd') as [Hother Hsame].
  by split.
Qed.

(** The calls of [send_request], in every case: nothing, one [send], or one
    [send] and then one [recv(4096)]. *)
Lemma send_request_trace host request_message client_socket w :
  ∃ t,
    trace (snd (WebBrowserModel.send_request host request_message
                  client_socket w)) = trace w ++ t ∧
    (t = [] ∨
     ∃ fd rb, client_socket = VSock fd ∧
       utf8_encode request_message = Some rb ∧
       (t = [EvSend fd rb] ∨ t = [EvSend fd rb; EvRecv fd 4096])).
Proof.
  rewrite send_request_world.
  destruct (utf8_encode request_message) as [rb|] eqn:Hrb.
  - destruct client_socket as [|s0|fd].
    + exists []. split; [|by left].
      rewrite (exchange_unsent request_message VNone w rb AttributeError w
                 Hrb eq_refl).
      by rewrite app_nil_r.
    + exists []. split; [|by left].
      rewrite (exchange_unsent request_message (VStr s0) w rb AttributeError
                 w Hrb eq_refl).
      by rewrite app_nil_r.
    + destruct (sock_send (VSock fd) rb w) as [[n|e] w1] eqn:Hs.
      * exists [EvSend fd rb; EvRecv fd 4096]. split; [|right; eauto 10].
        rewrite (exchange_sent _ _ _ _ _ _ Hrb Hs), sock_recv_trace.
        pose proof (sock_send_trace fd rb w) as Ht. rewrite Hs in Ht.
        cbn [snd] in Ht. by rewrite Ht, <- app_assoc.
      * exists [EvSend fd rb]. split; [|right; eauto 10].
        rewrite (exchange_unsent _ _ _ _ _ _ Hrb Hs).
        pose proof (sock_send_trace fd rb w) as Ht. by rewrite Hs in Ht.
  - exists []. rewrite exchange_unencodable by done.
    split; [by rewrite app_nil_r|by left].
Qed.

(** X10. Every search, for the view as it is wired, begins with exactly one
    socket and one call of [connect], for the parsed host and port 80, and
    makes no other, whatever the address, the network and the files: the
    calls that follow are among [send], [recv], [open], [set_html] and the
    print of the exception, and [socket], [connect], [getpeername] and
    [close] are not among them. *)
Theorem search_address_one_connection address_input w :
  ∃ t,
    trace (snd (WebBrowserView.search_address model address_input w)) =
    trace w ++
    [EvSocket (next_fd w);
     EvConnect (next_fd w)
       (fst (WebBrowserView.parse_address address_input), 80%Z)] ++ t ∧
    Forall after_connect t.
Proof.
  destruct (WebBrowserView.parse_address address_input) as [host path] eqn:Hp.
  cbn [fst].
  destruct (network w (host, 80%Z)) as [|e|f srv room] eqn:Hn.
  - rewrite (search_address_refused _ _ _ _ Hp Hn).
    exists []. cbn [snd]. rewrite attempted_trace. by split.
  - rewrite (search_address_unreachable _ _ _ _ _ Hp Hn).
    destruct (files w (py "error.html")) as [c|e'].
    + exists [EvOpen (py "error.html"); EvSetHtml (VStr c);
              EvPrintExn (OSError e)].
      cbn [snd trace log]. rewrite attempted_trace.
      split; [by rewrite <- !app_assoc|by repeat constructor].
    + exists [EvOpen (py "error.html")].
      cbn [snd trace log]. rewrite attempted_trace.
      split; [by rewrite <- !app_assoc|by repeat constructor].
  - rewrite (search_address_connected _ _ _ _ _ _ _ Hp Hn).
    set (w1 := set_socket (next_fd w)
                 (Socket (Some (Connection (host, 80%Z) f srv room)) [] 0)
                 (attempted host w)).
    destruct (send_request_trace host (request_for host path)
                (VSock (next_fd w)) w1) as (t & Ht & Hcases).
    assert (Forall after_connect t) as HF.
    { destruct Hcases as [->|(fd & rb & _ & _ & [->| ->])];
        by repeat constructor. }
    assert (trace w1 = trace w ++
              [EvSocket (next_fd w); EvConnect (next_fd w) (host, 80%Z)])
      as Hw1 by apply attempted_trace.
    destruct (WebBrowserModel.send_request host (request_for host path)
                (VSock (next_fd w)) w1) as [[r|e] w2]; cbn [snd] in *.
    + exists (t ++ [EvSetHtml r]). cbn [trace log].
      split; [by rewrite Ht, Hw1, <- !app_assoc|].
      apply Forall_app; split; [done|by repeat constructor].
    + exists t. split; [by rewrite Ht, Hw1, <- !app_assoc|done].
Qed.

(** X11. A view given the [WebBrowserController] never gets as far as
    sending. When the parsed host listens, the wrapper drops the socket that
    the model has connected and returns [None], and the search ends with the
    [AttributeError] of [None.send] (or with the [UnicodeEncodeError] of a
    request that cannot be encoded), which no handler catches: after the
    socket and the [connect] no call is made, nothing is sent and nothing is
    shown. *)
Theorem search_address_through_controller
    address_input host path w f srv room :
  WebBrowserView.parse_address address_input = (host, path) →
  network w (host, 80%Z) = Listening f srv room →
  ∃ w',
    WebBrowserView.search_address controller_instance address_input w =
    (Raise (match utf8_encode (request_for host path) with
            | Some _ => AttributeError
            | None => UnicodeEncodeError
            end), w') ∧
    socket_error (match utf8_encode (request_for host path) with
                  | Some _ => AttributeError
                  | None => UnicodeEncodeError
                  end) = false ∧
    trace w' =
    trace w ++ [EvSocket (next_fd w); EvConnect (next_fd w) (host, 80%Z)].
Proof.
  intros Hp Hn. unfold WebBrowserView.search_address. rewrite Hp.
  unfold try_except, bind at 1.
  cbn [controller_instance ctl_connect_to_server].
  unfold WebBrowserController.connect_to_server, bind at 1.
  rewrite connect_to_server_run, Hn. unfold ret at 1.
  unfold bind at 1. rewrite build_run.
  cbn [controller_instance ctl_send_request].
  unfold bind at 1.
  unfold WebBrowserController.send_request, bind at 1.
  unfold WebBrowserModel.send_request, try_except,
    WebBrowserModel.exchange, bind at 1, bind at 1.
  destruct (utf8_encode (request_for host path)) as [rb|];
    cbn [or_raise ret raise bind sock_send method socket_error fst snd];
    (eexists; split; [reflexivity|]); (split; [done|]);
    cbn [trace sockets set_socket]; by rewrite attempted_trace.
Qed.

Lemma search_address_through_controller_witness :
  ∃ w',
    WebBrowserView.search_address controller_instance localhost
      (boot (listener no_fault ok_reply)) = (Raise AttributeError, w') ∧
    socket_error AttributeError = false ∧
    trace w' = [EvSocket 3; EvConnect 3 (localhost, 80%Z)].
Proof.
  refine (search_address_through_controller localhost localhost []
            (boot (listener no_fault ok_reply)) no_fault (λ _, ok_reply)
            1024 _ _);
    vm_compute; reflexivity.
Defined.

(** ** What [send_request] returns *)

Lemma str_find_min sub s i :
  str_find sub s = Some i →
  ∀ j, (j < i)%nat → startswith sub (drop j s) = false.
Proof.
  revert i. induction s as [|x s IH]; intros i.
  - simpl. destruct (startswith sub []); [|done]. intros [= <-] j Hj. lia.
  - rewrite str_find_cons. destruct (startswith sub (x :: s)) eqn:E.
    + intros [= <-] j Hj. lia.
    + destruct (str_find sub s) as [i'|]; [|done]. intros [= <-] [|j] Hj.
      * exact E.
      * apply (IH i' eq_refl). lia.
Qed.

Lemma str_find_absent sub s :
  (∀ j, startswith sub (drop j s) = false) → str_find sub s = None.
Proof.
  induction s as [|x s IH]; intros H.
  - pose proof (H 0%nat) as H0. simpl in *. by rewrite H0.
  - pose proof (H 0%nat) as H0. cbn [drop] in H0.
    rewrite str_find_cons, H0. rewrite IH; [done|].
    intros j. apply (H (S j)).
Qed.

(** The text before the first occurrence holds no occurrence. *)
Lemma str_find_take sub s i :
  sub ≠ [] → str_find sub s = Some i → str_find sub (take i s) = None.
Proof.
  intros Hsub Hi. apply str_find_absent. intros j.
  destruct (startswith sub (drop j (take i s))) eqn:E; [|done].
  apply startswith_spec in E as [r E].
  pose proof (str_find_bound _ _ _ Hi) as Hb.
  destruct (decide (j < i)%nat) as [Hlt|Hge].
  - assert (startswith sub (drop j s) = true) as Hs.
    { apply startswith_spec. exists (r ++ drop i s).
      rewrite <- (take_drop i s) at 1.
      rewrite drop_app_le by (rewrite length_take; lia).
      by rewrite E, <- app_assoc. }
    by rewrite (str_find_min _ _ _ Hi j Hlt) in Hs.
  - rewrite drop_ge in E by (rewrite length_take; lia).
    destruct sub; [done|discriminate].
Qed.

(** When [split_body] returns, the text read is a heading without
    ['<html>'], one ['<html>'], and a body without ['<html>']. *)
Lemma split_body_returns bs w b w' :
  WebBrowserModel.split_body bs w = (Return b, w') →
  ∃ H B,
    utf8_decode bs = Some (H ++ py "<html>" ++ B) ∧
    str_find (py "<html>") H = None ∧
    str_find (py "<html>") B = None ∧
    b = py "<html>" ++ B.
Proof.
  unfold WebBrowserModel.split_body.
  destruct (utf8_decode bs) as [T|]; [|done].
  cbn [or_raise]. rewrite bind_ret. rewrite py_html. unfold str_split.
  cbn [or_raise]. rewrite bind_ret, pieces_eq.
  destruct (str_find [60; 104; 116; 109; 108; 62] T) as [i|] eqn:Hi; [|done].
  rewrite pieces_eq.
  destruct (str_find _ (drop _ T)) as [k|] eqn:Hk.
  { by destruct (pieces_inhabited 60 [104; 116; 109; 108; 62]
                   (drop (k + S (length [104; 116; 109; 108; 62]))
                      (drop (i + S (length [104; 116; 109; 108; 62])) T)))
      as (x & l & ->). }
  cbn [or_raise unpack2]. rewrite bind_ret. cbn [snd].
  rewrite <- py_html, fstring_body. intros [= <- _].
  exists (take i T), (drop (i + 6) T). rewrite py_html.
  destruct (str_find_occurs _ _ _ Hi) as (X & Y & HT & HX).
  split; [|split; [|done]].
  - f_equal. subst i. rewrite HT at 1.
    rewrite HT, take_app_length, drop_app_add. by simpl.
  - by apply (str_find_take _ _ _) in Hi.
Qed.

(** How [send_request] comes to return. *)
Lemma send_request_returns host request_message client_socket w v w' :
  WebBrowserModel.send_request host request_message client_socket w =
  (Return v, w') →
  (v = VStr [] ∧
   ∃ e, WebBrowserModel.exchange request_message client_socket w =
        (Raise e, w') ∧ socket_error e = true) ∨
  (∃ bs H B,
     WebBrowserModel.exchange request_message client_socket w =
     (Return bs, w') ∧
     utf8_decode bs = Some (H ++ py "<html>" ++ B) ∧
     str_find (py "<html>") H = None ∧
     str_find (py "<html>") B = None ∧
     v = VStr (py "<html>" ++ B)).
Proof.
  destruct (WebBrowserModel.exchange request_message client_socket w)
    as [[bs|e] w0] eqn:Hex.
  - rewrite (send_request_after_exchange _ _ _ _ _ _ Hex).
    destruct (WebBrowserModel.split_body bs w0) as [[b|e] w1] eqn:Hsb;
      cbn [fst]; [|done].
    intros [= <- <-]. right.
    destruct (split_body_returns _ _ _ _ Hsb) as (H & B & Hd & HH & HB & ->).
    by exists bs, H, B.
  - rewrite (send_request_exchange_raises _ _ _ _ _ _ Hex).
    destruct (socket_error e) eqn:E; [|done].
    intros [= <- <-]. left. split; [done|]. by exists e.
Qed.

(** Decoding gives no more characters than there are bytes. *)
Lemma utf8_decode_length bs s :
  utf8_decode bs = Some s → (length s ≤ length bs)%nat.
Proof.
  remember (length bs) as n eqn:Hn. revert bs s Hn.
  induction n as [n IH] using lt_wf_ind. intros bs s -> Hd.
  assert (∀ r c, (length r < length bs)%nat →
            cons c <$> utf8_decode r = Some s →
            (length s ≤ length bs)%nat) as Hstep.
  { intros r c Hr Hs. destruct (utf8_decode r) as [s'|] eqn:E; [|done].
    injection Hs as <-. pose proof (IH _ Hr r s' eq_refl E). simpl. lia. }
  destruct bs as [|b0 r0]; simpl in Hd.
  { injection Hd as <-. done. }
  repeat case_match;
    repeat match goal with
           | H : Some _ = Some _ |- _ => injection H as <-
           | H : None = Some _ |- _ => discriminate H
           end; try done.
  all: eapply Hstep; [|exact Hd]; simpl; lia.
Qed.

Lemma exchange_bounded request_message client_socket w bs w' :
  WebBrowserModel.exchange request_message client_socket w = (Return bs, w') →
  (length bs ≤ 4096)%nat.
Proof.
  unfold WebBrowserModel.exchange.
  destruct (utf8_encode request_message) as [rb|]; [|done].
  cbn [or_raise]. rewrite bind_ret. unfold bind.
  destruct (sock_send client_socket rb w) as [[n|e] w1]; [|done].
  apply sock_recv_bounded.
Qed.

(** X12. What [send_request] returns is either [''] or ['<html>'] followed
    by a text that holds no ['<html>']: the heading never gets through. *)
Theorem send_request_result_shape
    host request_message client_socket w v w' :
  WebBrowserModel.send_request host request_message client_socket w =
  (Return v, w') →
  v = VStr [] ∨
  ∃ B, v = VStr (py "<html>" ++ B) ∧ str_find (py "<html>") B = None.
Proof.
  intros Hr.
  destruct (send_request_returns _ _ _ _ _ _ Hr)
    as [[-> _]|(bs & H & B & _ & _ & _ & HB & ->)]; [by left|].
  right. by exists B.
Qed.

Lemma send_request_result_shape_witness :
  VStr (py "<html><body>hi</body></html>") = VStr [] ∨
  ∃ B, VStr (py "<html><body>hi</body></html>") = VStr (py "<html>" ++ B) ∧
       str_find (py "<html>") B = None.
Proof.
  refine (send_request_result_shape localhost root_request (VSock 3)
            (connected no_fault ok_reply) _
            (snd (WebBrowserModel.send_request localhost root_request
                    (VSock 3) (connected no_fault ok_reply))) _).
  vm_compute. reflexivity.
Defined.

(** X13. [send_request] returns [''] exactly when [send] or [recv] raised a
    [socket.error]: an answer, whatever it holds, never gives ['']. *)
Theorem send_request_empty_iff host request_message client_socket w w' :
  WebBrowserModel.send_request host request_message client_socket w =
  (Return (VStr []), w') ↔
  ∃ e, WebBrowserModel.exchange request_message client_socket w =
       (Raise e, w') ∧ socket_error e = true.
Proof.
  split.
  - intros Hr.
    destruct (send_request_returns _ _ _ _ _ _ Hr)
      as [[_ He]|(bs & H & B & _ & _ & _ & _ & Hv)]; [done|].
    rewrite py_html in Hv. discriminate.
  - intros (e & Hex & He).
    by rewrite (send_request_exchange_raises _ _ _ _ _ _ Hex), He.
Qed.

(** X14. The string that [send_request] returns has at most 4096
    characters. *)
Theorem send_request_length host request_message client_socket w b w' :
  WebBrowserModel.send_request host request_message client_socket w =
  (Return (VStr b), w') →
  (length b ≤ 4096)%nat.
Proof.
  intros Hr.
  destruct (send_request_returns _ _ _ _ _ _ Hr)
    as [[[= ->] _]|(bs & H & B & Hex & Hd & _ & _ & [= ->])].
  - simpl. lia.
  - apply exchange_bounded in Hex. apply utf8_decode_length in Hd.
    rewrite py_html in Hd. rewrite length_app in Hd. simpl in *. lia.
Qed.

Lemma send_request_length_witness :
  (match fst (WebBrowserModel.send_request localhost root_request (VSock 3)
                (connected no_fault long_reply)) with
   | Return (VStr b) => length b
   | _ => 0%nat
   end ≤ 4096)%nat.
Proof.
  refine (send_request_length localhost root_request (VSock 3)
            (connected no_fault long_reply)
            (py "<html>" ++ replicate 4090 97)
            (snd (WebBrowserModel.send_request localhost root_request
                    (VSock 3) (connected no_fault long_reply))) _).
  vm_compute. reflexivity.
Defined.

Lemma sends_app t1 t2 : sends (t1 ++ t2) = sends t1 ++ sends t2.
Proof. apply omap_app. Qed.

Lemma sock_recv_tx fd n w :
  tx <$> sockets (snd (sock_recv (VSock fd) n w)) !! fd =
  tx <$> sockets w !! fd.
Proof.
  unfold sock_recv, method, bind, emit, on_connection. cbn [fst snd].
  cbn [sockets log].
  destruct (sockets w !! fd) as [s|] eqn:Hs; [|cbn [snd sockets log]; by rewrite Hs].
  destruct (conn s) as [c|]; [|cbn [snd sockets log]; by rewrite Hs].
  destruct (fault c OpRecv); [cbn [snd sockets log]; by rewrite Hs|].
  cbn [snd sockets set_socket]. by rewrite lookup_insert_eq.
Qed.

(** X15. On a connected socket whose send goes through, [send_request]
    calls [send] once, with the whole encoded request, and does not look at
    what [send] returns: the bytes written are the first ones that the send
    buffer takes, and the rest of the request is never written. *)
Theorem send_request_single_send host request_message fd w s c rb :
  sockets w !! fd = Some s → conn s = Some c →
  fault c OpSend = None →
  utf8_encode request_message = Some rb →
  sends (trace (snd (WebBrowserModel.send_request host request_message
                       (VSock fd) w))) = sends (trace w) ++ [rb] ∧
  tx <$> sockets (snd (WebBrowserModel.send_request host request_message
                         (VSock fd) w)) !! fd =
  Some (tx s ++ take (sndbuf c) rb).
Proof.
  intros Hs Hc Hf Hrb. rewrite send_request_world.
  rewrite (exchange_sent _ _ _ _ _ _ Hrb (sock_send_ok _ _ _ _ _ Hs Hc Hf)).
  split.
  - rewrite sock_recv_trace. cbn [trace set_socket log].
    rewrite !sends_app. cbn [sends omap]. simpl. by rewrite app_nil_r.
  - rewrite sock_recv_tx. cbn [sockets set_socket].
    by rewrite lookup_insert_eq.
Qed.

(** The send buffer takes 10 bytes of the 35 of the request. *)
Lemma send_request_single_send_witness :
  sends (trace (snd (WebBrowserModel.send_request localhost root_request
                       (VSock 3)
                       (snd (WebBrowserModel.connect_to_server localhost
                               (boot (narrow_listener 10 ok_reply)))))))
  = [encoded root_request] ∧
  tx <$> sockets (snd (WebBrowserModel.send_request localhost root_request
                         (VSock 3)
                         (snd (WebBrowserModel.connect_to_server localhost
                                 (boot (narrow_listener 10 ok_reply))))))
         !! 3%nat = Some (list_byte_of_string "GET / HTTP").
Proof.
  exact (send_request_single_send localhost root_request 3
           (snd (WebBrowserModel.connect_to_server localhost
                   (boot (narrow_listener 10 ok_reply))))
           (Socket (Some (Connection (localhost, 80%Z) no_fault
                            (λ _, ok_reply) 10)) [] 0)
           (Connection (localhost, 80%Z) no_fault (λ _, ok_reply) 10)
           (encoded root_request) eq_refl eq_refl eq_refl eq_refl).
Defined.

(** ** More on [close_connection] *)

Lemma close_connection_unpeered fd w e w1 :
  sock_getpeername (VSock fd) w = (Raise e, w1) →
  WebBrowserModel.close_connection (VSock fd) w =
  (Return VNone,
   log (EvPrint (lit "Conexão não existe ou já foi fechada."))
     (log (EvGetpeername fd) w)).
Proof.
  intros Hg. unfold WebBrowserModel.close_connection, try_except.
  rewrite (bind_raises _ _ _ _ _ Hg).
  by destruct (sock_getpeername_raises _ _ _ _ Hg) as [-> ->].
Qed.

Lemma sock_getpeername_returns fd w a w1 :
  sock_getpeername (VSock fd) w = (Return a, w1) →
  w1 = log (EvGetpeername fd) w ∧ is_Some (sockets w !! fd).
Proof.
  unfold sock_getpeername, method, bind, emit, on_connection, ret.
  cbn [sockets log].
  destruct (sockets w !! fd) as [s|]; [|done].
  destruct (conn s) as [c|]; [|done].
  destruct (fault c OpGetpeername); [done|]. by intros [= _ <-].
Qed.

(** After [getpeername] returned, the socket is released, with or without
    the message. *)
Lemma close_connection_peered fd w a w1 :
  sock_getpeername (VSock fd) w = (Return a, w1) →
  ∃ w',
    WebBrowserModel.close_connection (VSock fd) w = (Return VNone, w') ∧
    sockets w' = delete fd (sockets w).
Proof.
  intros Hg. unfold WebBrowserModel.close_connection, try_except.
  rewrite (bind_returns _ _ _ _ _ Hg).
  destruct (sock_getpeername_returns _ _ _ _ Hg) as [-> [s Hs]].
  unfold sock_close, method, print, emit, bind, ret.
  cbn [sockets log fst snd]. rewrite Hs.
  destruct (conn s ≫= _); cbn [socket_error]; eexists; by split.
Qed.

(** X16. [close_connection] on an open connection in order releases the
    socket with one [getpeername] and one [close], and prints nothing. *)
Theorem close_connection_releases fd w s c :
  sockets w !! fd = Some s → conn s = Some c →
  fault c OpGetpeername = None → fault c OpClose = None →
  ∃ w',
    WebBrowserModel.close_connection (VSock fd) w = (Return VNone, w') ∧
    trace w' = trace w ++ [EvGetpeername fd; EvClose fd] ∧
    sockets w' = delete fd (sockets w).
Proof.
  intros Hs Hc Hg Hcl.
  unfold WebBrowserModel.close_connection, try_except,
    sock_getpeername, sock_close, method, on_connection, emit, bind, ret.
  cbn [sockets log fst snd]. rewrite Hs, Hc, Hg. cbn [sockets log].
  rewrite Hs, Hc. simpl. rewrite Hcl.
  eexists. split; [reflexivity|]. cbn [trace sockets drop_socket log].
  by rewrite <- app_assoc.
Qed.

Lemma close_connection_releases_witness :
  ∃ w',
    WebBrowserModel.close_connection (VSock 3) (connected no_fault ok_reply) =
    (Return VNone, w') ∧
    trace w' =
    [EvSocket 3; EvConnect 3 (localhost, 80%Z); EvGetpeername 3; EvClose 3] ∧
    sockets w' = ∅.
Proof.
  destruct (close_connection_releases 3 (connected no_fault ok_reply)
              (Socket (Some (Connection (localhost, 80%Z) no_fault
                               (λ _, ok_reply) 1024)) [] 0)
              (Connection (localhost, 80%Z) no_fault (λ _, ok_reply) 1024)
              eq_refl eq_refl eq_refl eq_refl) as (w' & Hr & Ht & Hs).
  exists w'. split; [exact Hr|]. split; [exact Ht|].
  rewrite Hs. vm_compute. reflexivity.
Defined.

(** X17. A second [close_connection] on the same socket does nothing but
    print the message, whatever the first one met: no [close] is called
    and no socket changes. *)
Theorem close_connection_twice fd w :
  WebBrowserModel.close_connection (VSock fd)
    (snd (WebBrowserModel.close_connection (VSock fd) w)) =
  (Return VNone,
   log (EvPrint (lit "Conexão não existe ou já foi fechada."))
     (log (EvGetpeername fd)
        (snd (WebBrowserModel.close_connection (VSock fd) w)))).
Proof.
  assert (∀ w0, (∀ a w1, sock_getpeername (VSock fd) w0 ≠ (Return a, w1)) →
    WebBrowserModel.close_connection (VSock fd) w0 =
    (Return VNone,
     log (EvPrint (lit "Conexão não existe ou já foi fechada."))
       (log (EvGetpeername fd) w0))) as Hfail.
  { intros w0 Hno.
    destruct (sock_getpeername (VSock fd) w0) as [[a|e] w1] eqn:Hg.
    - by destruct (Hno a w1).
    - by apply (close_connection_unpeered _ _ _ _ Hg). }
  apply Hfail. intros a w1.
  destruct (sock_getpeername (VSock fd) w) as [[a0|e0] w0] eqn:Hg.
  - destruct (close_connection_peered _ _ _ _ Hg) as (w' & -> & Hs).
    cbn [snd]. intros Hg'.
    destruct (sock_getpeername_returns _ _ _ _ Hg') as [_ [s Hl]].
    rewrite Hs, lookup_delete_eq in Hl. done.
  - rewrite (close_connection_unpeered _ _ _ _ Hg). cbn [snd].
    unfold sock_getpeername, method, bind, emit, on_connection, ret in *.
    cbn [sockets log fst snd] in *.
    destruct (sockets w !! fd) as [s|]; [|done].
    destruct (conn s) as [c|]; [|done].
    by destruct (fault c OpGetpeername).
Qed.

(** X18. [close_connection] changes no socket but the one it is given. *)
Theorem close_connection_frame fd fd' w :
  fd' ≠ fd →
  sockets (snd (WebBrowserModel.close_connection (VSock fd) w)) !! fd' =
  sockets w !! fd'.
Proof.
  intros Hne.
  destruct (sock_getpeername (VSock fd) w) as [[a|e] w1] eqn:Hg.
  - destruct (close_connection_peered _ _ _ _ Hg) as (w' & -> & Hs).
    cbn [snd]. by rewrite Hs, lookup_delete_ne.
  - by rewrite (close_connection_unpeered _ _ _ _ Hg).
Qed.

Lemma close_connection_frame_witness :
  sockets (snd (WebBrowserModel.close_connection (VSock 3)
                  (snd (WebBrowserModel.connect_to_server localhost
                          (connected no_fault ok_reply))))) !! 4%nat =
  sockets (snd (WebBrowserModel.connect_to_server localhost
                  (connected no_fault ok_reply))) !! 4%nat.
Proof.
  apply (close_connection_frame 3 4). lia.
Defined.

(** X19. The controller's [close_connection] is the model's: the same
    outcome (there is no return value to lose) and the same world, for every
    argument. *)
Theorem controller_close_connection client_socket w :
  WebBrowserController.close_connection client_socket w =
  WebBrowserModel.close_connection client_socket w.
Proof.
  unfold WebBrowserController.close_connection, bind, ret.
  destruct client_socket as [|s|fd]; try reflexivity.
  destruct (sock_getpeername (VSock fd) w) as [[a|e] w1] eqn:Hg.
  - by destruct (close_connection_peered _ _ _ _ Hg) as (w' & -> & _).
  - by rewrite (close_connection_unpeered _ _ _ _ Hg).
Qed.

Lemma close_connection_run fd w s c :
  sockets w !! fd = Some s → conn s = Some c →
  fault c OpGetpeername = None → fault c OpClose = None →
  WebBrowserModel.close_connection (VSock fd) w =
  (Return VNone,
   drop_socket fd (log (EvClose fd) (log (EvGetpeername fd) w))).
Proof.
  intros Hs Hc Hg Hcl.
  unfold WebBrowserModel.close_connection, try_except,
    sock_getpeername, sock_close, method, on_connection, emit, bind, ret.
  cbn [sockets log fst snd]. rewrite Hs, Hc, Hg. cbn [sockets log].
  rewrite Hs, Hc. simpl. by rewrite Hcl.
Qed.

Lemma sock_send_closed fd data w :
  sockets w !! fd = None →
  sock_send (VSock fd) data w =
  (Raise (OSError EBADF), log (EvSend fd data) w).
Proof.
  intros Hs. unfold sock_send, method, bind, emit, on_connection.
  cbn [sockets log]. by rewrite Hs.
Qed.

(** X20. A socket that [close_connection] has released is of no use to
    [send_request], which does not raise on it either: [send] fails with a
    [socket.error], nothing is read, and [''] is returned. *)
Theorem send_request_after_close host request_message fd w s c rb :
  sockets w !! fd = Some s → conn s = Some c →
  fault c OpGetpeername = None → fault c OpClose = None →
  utf8_encode request_message = Some rb →
  ∃ w',
    WebBrowserModel.send_request host request_message (VSock fd)
      (snd (WebBrowserModel.close_connection (VSock fd) w)) =
    (Return (VStr []), w') ∧
    trace w' = trace w ++ [EvGetpeername fd; EvClose fd; EvSend fd rb].
Proof.
  intros Hs Hc Hg Hcl Hrb.
  rewrite (close_connection_run _ _ _ _ Hs Hc Hg Hcl). cbn [snd].
  erewrite send_request_exchange_raises;
    [|eapply exchange_unsent; [exact Hrb|];
      apply sock_send_closed; cbn [sockets drop_socket log];
      apply lookup_delete_eq].
  cbn [socket_error]. eexists. split; [reflexivity|].
  cbn [trace log drop_socket]. by rewrite <- !app_assoc.
Qed.

Lemma send_request_after_close_witness :
  ∃ w',
    WebBrowserModel.send_request localhost root_request (VSock 3)
      (snd (WebBrowserModel.close_connection (VSock 3)
              (connected no_fault ok_reply))) = (Return (VStr []), w') ∧
    trace w' =
    [EvSocket 3; EvConnect 3 (localhost, 80%Z); EvGetpeername 3; EvClose 3;
     EvSend 3 (encoded root_request)].
Proof.
  exact (send_request_after_close localhost root_request 3
           (connected no_fault ok_reply)
           (Socket (Some (Connection (localhost, 80%Z) no_fault
                            (λ _, ok_reply) 1024)) [] 0)
           (Connection (localhost, 80%Z) no_fault (λ _, ok_reply) 1024)
           (encoded root_request) eq_refl eq_refl eq_refl eq_refl eq_refl).
Defined.

(** X21. When the host listens and [getpeername] and [close] meet no
    error, [connect_to_server] and then [close_connection] on the socket it
    returned leave the sockets as they were: what was opened is released,
    with one call of each of [socket], [connect], [getpeername] and
    [close]. *)
Theorem connect_then_close host w f srv room :
  sockets w !! next_fd w = None →
  network w (host, 80%Z) = Listening f srv room →
  f OpGetpeername = None → f OpClose = None →
  ∃ client_socket w1 w2,
    WebBrowserModel.connect_to_server host w = (Return client_socket, w1) ∧
    WebBrowserModel.close_connection client_socket w1 = (Return VNone, w2) ∧
    sockets w2 = sockets w ∧
    trace w2 =
    trace w ++ [EvSocket (next_fd w); EvConnect (next_fd w) (host, 80%Z);
                EvGetpeername (next_fd w); EvClose (next_fd w)].
Proof.
  intros Hfresh Hn Hg Hcl. rewrite connect_to_server_run, Hn.
  eexists _, _, _. split; [reflexivity|].
  erewrite close_connection_run;
    [|apply set_socket_lookup|reflexivity|exact Hg|exact Hcl].
  split; [reflexivity|]. split.
  - cbn [sockets drop_socket log set_socket attempted socket_socket snd].
    rewrite !delete_insert_eq. by apply delete_id.
  - cbn [trace drop_socket log set_socket]. rewrite attempted_trace.
    by rewrite <- !app_assoc.
Qed.

Lemma connect_then_close_witness :
  ∃ client_socket w1 w2,
    WebBrowserModel.connect_to_server localhost
      (boot (listener no_fault ok_reply)) = (Return client_socket, w1) ∧
    WebBrowserModel.close_connection client_socket w1 = (Return VNone, w2) ∧
    sockets w2 = ∅ ∧
    trace w2 =
    [EvSocket 3; EvConnect 3 (localhost, 80%Z); EvGetpeername 3; EvClose 3].
Proof.
  exact (connect_then_close localhost (boot (listener no_fault ok_reply))
           no_fault (λ _, ok_reply) 1024 eq_refl eq_refl eq_refl eq_refl).
Defined.
